(** * The controlled-state Toggle coordinator

    A shallow embedding of the [Toggle] class of
    [src/exercises-final/12.js] (higher order components) and of its twin in
    the provider-pattern file [src/unnamed/part_000], which carries the same
    coordinator and differs in what [onToggle] / [onReset] receive.

    How the JavaScript is read:
    - an object is the list of its own properties in insertion order, and a
      property read that misses is [undefined];
    - [setState] is React's, applied one call at a time: the updater runs on
      the current state, a non-null result is merged into it, and the
      callback runs afterwards;
    - the functions of the owner ([onToggle], [onReset], [onStateChange], an
      [onClick] among the overrides) are opaque: a call is recorded in a
      trace of events and does not call back into the instance;
    - [stateReducer] is a function from a state and a change record to a
      change record. *)

From Stdlib Require Import String List Bool ZArith Arith.
Import ListNotations.
Open Scope string_scope.
Open Scope list_scope.

Set Warnings "-register-all".

(** ** JavaScript values and objects *)

Module JS.

(** Values that travel through the coordinator. Functions are references:
    the bound methods of the instance, the closures the class creates, and
    opaque functions that belong to the owner. *)
Inductive Value : Type :=
| VUndefined
| VNull
| VBool (b : bool)
| VNum (n : Z)
| VStr (s : string)
| VFun (f : Fn)
| VObj (o : list (string * Value))
with Fn : Type :=
| FnProp (name : string)          (* this.props.<name>, a callback prop *)
| FnOwner (name : string)         (* any other function of the owner *)
| FnToggle                        (* this.toggle *)
| FnReset                         (* this.reset *)
| FnGetTogglerProps               (* this.getTogglerProps *)
| FnToggleThunk                   (* () => this.toggle() *)
| FnCallAll (fns : list Value).   (* callAll(...fns) *)

Definition Obj : Type := list (string * Value).

(** [v !== undefined] *)
Definition is_defined (v : Value) : bool :=
  match v with VUndefined => false | _ => true end.

(** ToBoolean, as used by [!on] and [fn && ...]. *)
Definition truthy (v : Value) : bool :=
  match v with
  | VUndefined | VNull => false
  | VBool b => b
  | VNum n => negb (Z.eqb n 0)
  | VStr s => negb (String.eqb s "")
  | VFun _ | VObj _ => true
  end.

(** Own-property lookup. *)
Fixpoint obj_lookup (k : string) (o : Obj) : option Value :=
  match o with
  | [] => None
  | (k', v) :: o' => if String.eqb k k' then Some v else obj_lookup k o'
  end.

(** [o[k]] *)
Definition obj_get (k : string) (o : Obj) : Value :=
  match obj_lookup k o with Some v => v | None => VUndefined end.

(** [o.hasOwnProperty(k)] *)
Definition hasOwnProperty (o : Obj) (k : string) : bool :=
  match obj_lookup k o with Some _ => true | None => false end.

(** [o[k] = v]: an existing key keeps its place, a new one goes last. *)
Fixpoint obj_set (k : string) (v : Value) (o : Obj) : Obj :=
  match o with
  | [] => [(k, v)]
  | (k', v') :: o' =>
      if String.eqb k k' then (k, v) :: o' else (k', v') :: obj_set k v o'
  end.

(** [Object.keys(o)] *)
Definition keys (o : Obj) : list string := map fst o.

(** [Object.assign(target, src)] and object spread [{...target, ...src}]. *)
Definition obj_assign (target src : Obj) : Obj :=
  fold_left (fun t kv => obj_set (fst kv) (snd kv) t) src target.

(** The rest pattern [{k, ...rest} = o]: every own property but [k]. *)
Definition obj_rest (k : string) (o : Obj) : Obj :=
  filter (fun kv => negb (String.eqb (fst kv) k)) o.

(** A list is the entries of a JavaScript object when no key repeats. *)
Fixpoint distinct (ks : list string) : bool :=
  match ks with
  | [] => true
  | k :: ks' => negb (existsb (String.eqb k) ks') && distinct ks'
  end.

Definition obj_wf (o : Obj) : bool := distinct (keys o).

End JS.
Import JS.

(** ** React's component model

    What the class relies on from the rendering library: props resolved
    against [defaultProps], an instance holding props and state, and
    [setState(updater, callback)]. *)

Module React.

(** Props as the instance sees them. [attrs] holds what the owner wrote on
    the element; the callback props are functions (the owner's or the
    default no-ops) and [stateReducer] is the owner's or the default. *)
Record Props : Type := mkProps {
  attrs : Obj;
  stateReducer : Obj -> Obj -> Obj;
}.

(** One call that leaves the coordinator. *)
Inductive Event : Type :=
| Call (f : Fn) (args : list Value).

Record Instance : Type := mkInstance {
  props : Props;
  initialState : Obj;
  state : Obj;
}.

Definition with_state (this : Instance) (st : Obj) : Instance :=
  {| props := props this; initialState := initialState this; state := st |}.

(** The owner renders the element again with other props. *)
Definition rerender (p : Props) (this : Instance) : Instance :=
  {| props := p; initialState := initialState this; state := state this |}.

(** [this.setState(updater, callback)]. The updater may leave a value in a
    variable of the enclosing scope for the callback to read; that value is
    the updater's first result here. A [null] update ([None]) changes
    nothing, and the callback runs either way. *)
Definition setState {A : Type}
    (updater : Obj -> A * option Obj)
    (callback : A -> Instance -> list Event)
    (this : Instance) : Instance * list Event :=
  let (a, partial) := updater (state this) in
  let this' :=
    match partial with
    | Some stateToSet => with_state this (obj_assign (state this) stateToSet)
    | None => this
    end in
  (this', callback a this').

End React.
Import React.

(** ** The coordinator: what both files share *)

Module Core.

(** The data part of [static defaultProps]. *)
Definition defaultProps : Obj := [("initialOn", VBool false)].

(** The function part of [static defaultProps]: these props are never
    [undefined]. *)
Definition callbackProps : list string :=
  ["onReset"; "onToggle"; "onStateChange"; "stateReducer"].

(** [stateReducer: (state, changes) => changes] *)
Definition defaultStateReducer (state changes : Obj) : Obj := changes.

(** [this.props[prop]] *)
Definition props_get (p : Props) (prop : string) : Value :=
  if existsb (String.eqb prop) callbackProps then VFun (FnProp prop)
  else
    match obj_get prop (attrs p) with
    | VUndefined => obj_get prop defaultProps
    | v => v
    end.

Definition stateChangeTypes : Obj :=
  [("reset", VStr "__toggle_reset__"); ("toggle", VStr "__toggle_toggle__")].

Definition isControlled (p : Props) (prop : string) : bool :=
  is_defined (props_get p prop).

(** [getState(state)]; [this.getState()] is [getState] at [this.state]. *)
Definition getState (p : Props) (state : Obj) : Obj :=
  fold_left
    (fun combinedState entry =>
       let (key, value) := entry : string * Value in
       if isControlled p key
       then obj_set key (props_get p key) combinedState
       else obj_set key value combinedState)
    state [].

Definition currentState (this : Instance) : Obj :=
  getState (props this) (state this).

(** The proposed change: a literal record or a function of the combined
    state. *)
Inductive Changes : Type :=
| ChangesObj (c : Obj)
| ChangesFun (c : Obj -> Obj).

(** The last [.map] of the updater: "remove the controlled props". *)
Definition removeControlled (p : Props) (state combinedState c : Obj) : Obj :=
  fold_left
    (fun newChanges stateKey =>
       if negb (isControlled p stateKey)
       then obj_set stateKey
              (if hasOwnProperty c stateKey
               then obj_get stateKey c
               else obj_get stateKey combinedState)
              newChanges
       else newChanges)
    (keys state) [].

(** The updater passed to [setState]. Its first result is [allChanges]. *)
Definition updater (p : Props) (changes : Changes) (state : Obj)
  : Obj * option Obj :=
  let combinedState := getState p state in
  let c1 :=
    match changes with
    | ChangesFun c => c combinedState
    | ChangesObj c => c
    end in
  let allChanges := stateReducer p combinedState c1 in
  let stateToSet := removeControlled p state combinedState allChanges in
  (allChanges,
   match length (keys stateToSet) with
   | O => None
   | S _ => Some stateToSet
   end).

Definition internalSetState (changes : Changes)
    (callback : Instance -> list Event) (this : Instance)
  : Instance * list Event :=
  setState
    (updater (props this) changes)
    (fun allChanges this' =>
       Call (FnProp "onStateChange") [VObj allChanges; VObj (state this')]
       :: callback this')
    this.

(** The [initialState] field, computed when the instance is created. *)
Definition mkInitialState (p : Props) : Obj :=
  [("on", props_get p "initialOn");
   ("toggle", VFun FnToggle);
   ("reset", VFun FnReset);
   ("getTogglerProps", VFun FnGetTogglerProps)].

(** [new Toggle(props)]: [state = this.initialState]. *)
Definition construct (p : Props) : Instance :=
  {| props := p; initialState := mkInitialState p; state := mkInitialState p |}.

(** The [type] that [toggle]'s parameter pattern
    [{type = Toggle.stateChangeTypes.toggle} = {}] binds. *)
Definition toggleType (arg : option Obj) : Value :=
  match arg with
  | None => obj_get "toggle" stateChangeTypes
  | Some o =>
      match obj_get "type" o with
      | VUndefined => obj_get "toggle" stateChangeTypes
      | v => v
      end
  end.

(** [({on}) => ({type, on: !on})] *)
Definition toggleChanges (type : Value) (combinedState : Obj) : Obj :=
  [("type", type); ("on", VBool (negb (truthy (obj_get "on" combinedState))))].

(** [{...this.initialState, type: Toggle.stateChangeTypes.reset}] *)
Definition resetChanges (this : Instance) : Obj :=
  obj_set "type" (obj_get "reset" stateChangeTypes) (initialState this).

(** The argument of a call [f(v)] as the parameter pattern [{...} = {}]
    sees it: [undefined] takes the default, [null] cannot be destructured
    ([None], a TypeError), and any other value is read as an object. *)
Definition patternArg (args : list Value) : option (option Obj) :=
  match args with
  | [] | VUndefined :: _ => Some None
  | VNull :: _ => None
  | VObj o :: _ => Some (Some o)
  | _ :: _ => Some (Some [])
  end.

End Core.
Import Core.

(** ** [src/exercises-final/12.js] *)

Module Final12.

Definition reset (this : Instance) : Instance * list Event :=
  internalSetState
    (ChangesObj (resetChanges this))
    (fun this' => [Call (FnProp "onReset") [obj_get "on" (currentState this')]])
    this.

Definition toggle (arg : option Obj) (this : Instance) : Instance * list Event :=
  let type := toggleType arg in
  internalSetState
    (ChangesFun (toggleChanges type))
    (fun this' => [Call (FnProp "onToggle") [obj_get "on" (currentState this')]])
    this.

Definition getTogglerProps (arg : option Obj) (this : Instance) : Obj :=
  let o := match arg with Some o => o | None => [] end in
  let onClick := obj_get "onClick" o in
  let props := obj_rest "onClick" o in
  obj_assign
    [("onClick", VFun (FnCallAll [onClick; VFun FnToggleThunk]));
     ("aria-expanded", obj_get "on" (currentState this))]
    props.

(** Calling a function value with [args]. [None] is a thrown TypeError.
    [FnCallAll fns] is the closure
    [(...args) => fns.forEach(fn => fn && fn(...args))]. *)
Fixpoint invoke (f : Fn) (args : list Value) (this : Instance) {struct f}
  : option (Instance * list Event) :=
  match f with
  | FnProp _ | FnOwner _ => Some (this, [Call f args])
  | FnToggle =>
      match patternArg args with
      | Some arg => Some (toggle arg this)
      | None => None
      end
  | FnReset => Some (reset this)
  | FnGetTogglerProps =>
      match patternArg args with
      | Some _ => Some (this, [])
      | None => None
      end
  | FnToggleThunk => Some (toggle None this)
  | FnCallAll fns =>
      (fix forEach (fns : list Value) (this : Instance)
         : option (Instance * list Event) :=
         match fns with
         | [] => Some (this, [])
         | fn :: rest =>
             if truthy fn then
               match fn with
               | VFun g =>
                   match invoke g args this with
                   | Some (this1, t1) =>
                       match forEach rest this1 with
                       | Some (this2, t2) => Some (this2, t1 ++ t2)
                       | None => None
                       end
                   | None => None
                   end
               | _ => None
               end
             else forEach rest this
         end) fns this
  end.

(** The two public operations, and a run of them. *)
Inductive Op : Type :=
| OpToggle (arg : option Obj)
| OpReset.

Definition step (op : Op) (this : Instance) : Instance * list Event :=
  match op with
  | OpToggle arg => toggle arg this
  | OpReset => reset this
  end.

Fixpoint run (ops : list Op) (this : Instance) : Instance * list Event :=
  match ops with
  | [] => (this, [])
  | op :: ops' =>
      let (this1, t1) := step op this in
      let (this2, t2) := run ops' this1 in
      (this2, t1 ++ t2)
  end.

End Final12.

(** ** [src/unnamed/part_000], the provider pattern: the same class, other
    callback payloads *)

Module Provider.

Definition reset (this : Instance) : Instance * list Event :=
  internalSetState
    (ChangesObj (resetChanges this))
    (fun this' => [Call (FnProp "onReset") [VObj (currentState this')]])
    this.

Definition toggle (arg : option Obj) (this : Instance) : Instance * list Event :=
  let type := toggleType arg in
  internalSetState
    (ChangesFun (toggleChanges type))
    (fun this' => [Call (FnProp "onToggle") [VObj (currentState this')]])
    this.

End Provider.

(** ** Observing the pipeline *)

(** The record that [stateReducer] returns for a proposed change: the
    [allChanges] of [internalSetState]. *)
Definition authoritative (changes : Changes) (this : Instance) : Obj :=
  fst (updater (props this) changes (state this)).

(** The value the pipeline writes to an uncontrolled field. *)
Definition written (changes : Changes) (this : Instance) (k : string) : Value :=
  if hasOwnProperty (authoritative changes this) k
  then obj_get k (authoritative changes this)
  else obj_get k (currentState this).

(** Calls of the callback prop [name] in a trace. *)
Definition is_call (name : string) (e : Event) : bool :=
  match e with
  | Call (FnProp n) _ => String.eqb n name
  | Call _ _ => false
  end.

Definition calls (name : string) (t : list Event) : list Event :=
  filter (is_call name) t.

(** The change that an operation submits to the pipeline. *)
Definition proposal (op : Final12.Op) (this : Instance) : Changes :=
  match op with
  | Final12.OpToggle arg => ChangesFun (toggleChanges (toggleType arg))
  | Final12.OpReset => ChangesObj (resetChanges this)
  end.

(** The records that a trace reports to [onStateChange]. *)
Definition reportedChanges (t : list Event) : list Value :=
  flat_map
    (fun e =>
       match e with
       | Call (FnProp n) (c :: _) =>
           if String.eqb n "onStateChange" then [c] else []
       | Call _ _ => []
       end) t.

(** A reducer that answers every change with
    [{on: true, type: changes.type}]. *)
Definition forceOn (state changes : Obj) : Obj :=
  [("on", VBool true); ("type", obj_get "type" changes)].

(** What an owner can see of a run: the state objects and the trace. *)
Definition observe (r : Instance * list Event) : Obj * Obj * list Event :=
  (initialState (fst r), state (fst r), snd r).

(** Two instances that no operation tells apart: equal state, and props that
    read alike. *)
Definition alike (this1 this2 : Instance) : Prop :=
  initialState this1 = initialState this2
  /\ state this1 = state this2
  /\ (forall k, props_get (props this1) k = props_get (props this2) k)
  /\ (forall s c, stateReducer (props this1) s c = stateReducer (props this2) s c).

(** ** The rest of the two files *)

(** [render]: the value handed to [ToggleContext.Provider] and to a function
    child is [this.state]. *)
Definition contextValue (this : Instance) : Obj := state this.

(** The entry of the combined state that [getState]'s reducer callback makes
    of one entry of the state. *)
Definition combineEntry (p : Props) (entry : string * Value) : string * Value :=
  (fst entry,
   if isControlled p (fst entry) then props_get p (fst entry) else snd entry).

(** Running one function after another: the second starts where the first
    left the instance, unless the first threw. *)
Definition andThen (r : option (Instance * list Event))
    (k : Instance -> option (Instance * list Event))
  : option (Instance * list Event) :=
  match r with
  | Some (this1, t1) =>
      match k this1 with
      | Some (this2, t2) => Some (this2, t1 ++ t2)
      | None => None
      end
  | None => None
  end.

Definition is_toggle (op : Final12.Op) : bool :=
  match op with Final12.OpToggle _ => true | Final12.OpReset => false end.

(** [NavSwitch]: the props spread on the [Switch],
    [toggle.getTogglerProps({on: toggle.on})], with [toggle] the context
    value. The call goes through the field of the context value; the model
    follows it when the field holds the bound method and stops ([None])
    when a reducer has put something else there. *)
Definition NavSwitch (this : Instance) : option Obj :=
  let toggle := contextValue this in
  match obj_get "getTogglerProps" toggle with
  | VFun FnGetTogglerProps =>
      Some (Final12.getTogglerProps (Some [("on", obj_get "on" toggle)]) this)
  | _ => None
  end.

(** ** [src/exercises/10-primer.js], and the class that follows the separator
    in [src/exercises-final/12.js]: a Toggle that owns its state *)

Module Primer.

(** [state = {on: false}]. The class has no [initialState] field and no
    reducer; the record's are left unused. *)
Definition construct (p : Props) : Instance :=
  {| props := p; initialState := []; state := [("on", VBool false)] |}.

(** [toggle]: [setState(({on}) => ({on: !on}),
                        () => this.props.onToggle(this.state.on))] *)
Definition toggle (this : Instance) : Instance * list Event :=
  setState
    (fun st => (tt, Some [("on", VBool (negb (truthy (obj_get "on" st))))]))
    (fun _ this' => [Call (FnProp "onToggle") [obj_get "on" (state this')]])
    this.

(** [render]: [const {on} = this.state], handed to the [Switch]. *)
Definition renderedOn (this : Instance) : Value := obj_get "on" (state this).

(** The primer's [Usage]: [state = {bothOn: false}] and the two toggles it
    renders, each with [on={bothOn}]. *)
Record Usage : Type := mkUsage {
  bothOn : Value;
  toggle1 : Instance;
  toggle2 : Instance;
}.

Definition toggleProps (bothOn : Value) : Props :=
  mkProps [("on", bothOn)] defaultStateReducer.

Definition mount : Usage :=
  {| bothOn := VBool false;
     toggle1 := construct (toggleProps (VBool false));
     toggle2 := construct (toggleProps (VBool false)) |}.

(** [handleToggle = on => this.setState({bothOn: on})], and the render that
    follows: both toggles get the new [bothOn] as their [on] prop. *)
Definition handleToggle (on : Value) (u : Usage) : Usage :=
  {| bothOn := on;
     toggle1 := rerender (toggleProps on) (toggle1 u);
     toggle2 := rerender (toggleProps on) (toggle2 u) |}.

(** The owner's side of a trace: each [onToggle] call is [handleToggle]. *)
Definition deliver (u : Usage) (e : Event) : Usage :=
  match e with
  | Call (FnProp "onToggle") [on] => handleToggle on u
  | Call _ _ => u
  end.

(** A click on the first ([true]) or the second ([false]) switch. *)
Definition click (u : Usage) (first : bool) : Usage :=
  if first then
    let (t, trace) := toggle (toggle1 u) in
    fold_left deliver trace
      {| bothOn := bothOn u; toggle1 := t; toggle2 := toggle2 u |}
  else
    let (t, trace) := toggle (toggle2 u) in
    fold_left deliver trace
      {| bothOn := bothOn u; toggle1 := toggle1 u; toggle2 := t |}.

Definition clicks (cs : list bool) (u : Usage) : Usage := fold_left click cs u.

End Primer.

(** ** Facts about objects *)

Section ObjFacts.

Lemma lookup_set (k k' : string) (v : Value) (o : Obj) :
  obj_lookup k (obj_set k' v o) =
  if String.eqb k k' then Some v else obj_lookup k o.
Proof.
  induction o as [|[k0 v0] o IH]; simpl.
  - destruct (String.eqb k k'); reflexivity.
  - destruct (String.eqb_spec k' k0) as [->|Hne]; simpl.
    + destruct (String.eqb k k0); reflexivity.
    + rewrite IH.
      destruct (String.eqb_spec k k0) as [->|Hne']; [|reflexivity].
      destruct (String.eqb_spec k0 k'); [congruence|reflexivity].
Qed.

Lemma keys_set (k : string) (v : Value) (o : Obj) :
  keys (obj_set k v o) = if hasOwnProperty o k then keys o else keys o ++ [k].
Proof.
  unfold hasOwnProperty.
  induction o as [|[k0 v0] o IH]; simpl; [reflexivity|].
  destruct (String.eqb_spec k k0) as [->|Hne]; simpl; [reflexivity|].
  fold (keys (obj_set k v o)). rewrite IH.
  destruct (obj_lookup k o); reflexivity.
Qed.

Lemma hasOwn_set (k k' : string) (v : Value) (o : Obj) :
  hasOwnProperty (obj_set k' v o) k = String.eqb k k' || hasOwnProperty o k.
Proof.
  unfold hasOwnProperty. rewrite lookup_set.
  destruct (String.eqb k k'); reflexivity.
Qed.

Lemma lookup_existsb (k : string) (o : Obj) :
  existsb (String.eqb k) (keys o) = hasOwnProperty o k.
Proof.
  unfold hasOwnProperty.
  induction o as [|[k0 v0] o IH]; simpl; [reflexivity|].
  destruct (String.eqb k k0); simpl; [reflexivity|exact IH].
Qed.

Lemma existsb_app_one (k k' : string) (ks : list string) :
  existsb (String.eqb k) (ks ++ [k']) = existsb (String.eqb k) ks || String.eqb k k'.
Proof. rewrite existsb_app. simpl. rewrite orb_false_r. reflexivity. Qed.

Lemma distinct_snoc (ks : list string) (k : string) :
  distinct ks = true -> existsb (String.eqb k) ks = false ->
  distinct (ks ++ [k]) = true.
Proof.
  induction ks as [|k0 ks IH]; simpl; intros Hd Hk; [reflexivity|].
  apply andb_true_iff in Hd as [Hk0 Hd].
  apply orb_false_iff in Hk as [Hkk0 Hk].
  rewrite existsb_app_one, IH by assumption.
  apply negb_true_iff in Hk0. rewrite Hk0. simpl.
  rewrite String.eqb_sym, Hkk0. reflexivity.
Qed.

Lemma wf_set (k : string) (v : Value) (o : Obj) :
  obj_wf o = true -> obj_wf (obj_set k v o) = true.
Proof.
  unfold obj_wf. intros Hwf. rewrite keys_set.
  destruct (hasOwnProperty o k) eqn:Hk; [assumption|].
  apply distinct_snoc; [assumption|]. rewrite lookup_existsb. exact Hk.
Qed.

(** Merging a duplicate-free source: its bindings win, the rest is kept. *)
Lemma lookup_assign (k : string) (src target : Obj) :
  obj_wf src = true ->
  obj_lookup k (obj_assign target src) =
  match obj_lookup k src with
  | Some v => Some v
  | None => obj_lookup k target
  end.
Proof.
  unfold obj_assign, obj_wf.
  revert target.
  induction src as [|[k0 v0] src IH]; simpl; intros target Hwf; [reflexivity|].
  apply andb_true_iff in Hwf as [Hk0 Hwf].
  rewrite IH by assumption. rewrite lookup_set.
  destruct (String.eqb_spec k k0) as [->|Hne]; [|reflexivity].
  apply negb_true_iff in Hk0. rewrite lookup_existsb in Hk0.
  unfold hasOwnProperty in Hk0.
  destruct (obj_lookup k0 src); [discriminate|reflexivity].
Qed.

(** Merging keys the target already has leaves its key order alone. *)
Lemma keys_assign (src target : Obj) :
  (forall k, hasOwnProperty src k = true -> hasOwnProperty target k = true) ->
  keys (obj_assign target src) = keys target.
Proof.
  unfold obj_assign. revert target.
  induction src as [|[k0 v0] src IH]; simpl; intros target Hsub; [reflexivity|].
  assert (Hk0 : hasOwnProperty target k0 = true).
  { apply Hsub. unfold hasOwnProperty. simpl. rewrite String.eqb_refl. reflexivity. }
  rewrite IH.
  - rewrite keys_set, Hk0. reflexivity.
  - intros k Hk. rewrite hasOwn_set.
    destruct (String.eqb_spec k k0) as [->|Hne]; [reflexivity|]. simpl.
    apply Hsub. unfold hasOwnProperty in *. simpl.
    destruct (String.eqb_spec k k0); [congruence|exact Hk].
Qed.

Lemma lookup_rest (k k' : string) (o : Obj) :
  obj_lookup k (obj_rest k' o) =
  if String.eqb k k' then None else obj_lookup k o.
Proof.
  unfold obj_rest.
  induction o as [|[k0 v0] o IH]; simpl.
  - destruct (String.eqb k k'); reflexivity.
  - destruct (String.eqb_spec k0 k') as [->|Hne]; simpl.
    + rewrite IH. destruct (String.eqb k k'); reflexivity.
    + rewrite IH.
      destruct (String.eqb_spec k k0) as [->|Hne']; [|reflexivity].
      destruct (String.eqb_spec k0 k'); [congruence|reflexivity].
Qed.

Lemma distinct_filter (f : string -> bool) (ks : list string) :
  distinct ks = true -> distinct (filter f ks) = true.
Proof.
  induction ks as [|k0 ks IH]; simpl; intros Hd; [reflexivity|].
  apply andb_true_iff in Hd as [Hk0 Hd].
  destruct (f k0); simpl; [|apply IH; exact Hd].
  rewrite IH by exact Hd. rewrite andb_true_r.
  apply negb_true_iff in Hk0. apply negb_true_iff.
  clear IH Hd. induction ks as [|k1 ks IH]; simpl in *; [reflexivity|].
  apply orb_false_iff in Hk0 as [H1 H2].
  destruct (f k1); simpl; [rewrite H1|]; apply IH; exact H2.
Qed.

Lemma wf_rest (k : string) (o : Obj) :
  obj_wf o = true -> obj_wf (obj_rest k o) = true.
Proof.
  unfold obj_wf, obj_rest, keys. intros Hwf.
  assert (Hmap : map fst (filter (fun kv : string * Value => negb (String.eqb (fst kv) k)) o)
                 = filter (fun k' => negb (String.eqb k' k)) (map fst o)).
  { clear Hwf. induction o as [|[k0 v0] o IH]; simpl; [reflexivity|].
    destruct (negb (String.eqb k0 k)); simpl; rewrite IH; reflexivity. }
  rewrite Hmap. apply distinct_filter. exact Hwf.
Qed.

End ObjFacts.

(** ** Facts about the shared coordinator *)

Section CoreFacts.

Variable p : Props.

(** Reading a field of the combined state, for the entries of an object. *)
Lemma getState_fold (k : string) (st acc : Obj) :
  obj_wf st = true ->
  obj_lookup k
    (fold_left
       (fun combinedState entry =>
          let (key, value) := entry : string * Value in
          if isControlled p key
          then obj_set key (props_get p key) combinedState
          else obj_set key value combinedState) st acc) =
  match obj_lookup k st with
  | Some v => Some (if isControlled p k then props_get p k else v)
  | None => obj_lookup k acc
  end.
Proof.
  unfold obj_wf. revert acc.
  induction st as [|[k0 v0] st IH]; simpl; intros acc Hwf; [reflexivity|].
  apply andb_true_iff in Hwf as [Hk0 Hwf].
  rewrite IH by assumption.
  apply negb_true_iff in Hk0. rewrite lookup_existsb in Hk0.
  unfold hasOwnProperty in Hk0.
  destruct (String.eqb_spec k k0) as [->|Hne].
  - destruct (obj_lookup k0 st); [discriminate|].
    destruct (isControlled p k0); rewrite lookup_set, String.eqb_refl; reflexivity.
  - destruct (obj_lookup k st); [reflexivity|].
    destruct (isControlled p k0); rewrite lookup_set;
      (destruct (String.eqb_spec k k0); [congruence|reflexivity]).
Qed.

Lemma getState_lookup (k : string) (st : Obj) :
  obj_wf st = true ->
  obj_lookup k (getState p st) =
  match obj_lookup k st with
  | Some v => Some (if isControlled p k then props_get p k else v)
  | None => None
  end.
Proof. intros Hwf. unfold getState. rewrite getState_fold by assumption. reflexivity. Qed.

(** A controlled field reads the prop whatever the entries hold. *)
Lemma getState_fold_controlled (k : string) (st acc : Obj) :
  isControlled p k = true ->
  obj_lookup k
    (fold_left
       (fun combinedState entry =>
          let (key, value) := entry : string * Value in
          if isControlled p key
          then obj_set key (props_get p key) combinedState
          else obj_set key value combinedState) st acc) =
  if hasOwnProperty st k then Some (props_get p k) else obj_lookup k acc.
Proof.
  intros Hc. unfold hasOwnProperty. revert acc.
  induction st as [|[k0 v0] st IH]; simpl; intros acc; [reflexivity|].
  rewrite IH.
  destruct (String.eqb_spec k k0) as [<-|Hne].
  - rewrite Hc, lookup_set, String.eqb_refl.
    destruct (obj_lookup k st); reflexivity.
  - destruct (obj_lookup k st); [reflexivity|].
    destruct (isControlled p k0); rewrite lookup_set;
      (destruct (String.eqb_spec k k0); [congruence|reflexivity]).
Qed.

Lemma getState_keys_fold (st acc : Obj) :
  distinct (keys acc ++ keys st) = true ->
  keys
    (fold_left
       (fun combinedState entry =>
          let (key, value) := entry : string * Value in
          if isControlled p key
          then obj_set key (props_get p key) combinedState
          else obj_set key value combinedState) st acc) = keys acc ++ keys st.
Proof.
  revert acc.
  induction st as [|[k0 v0] st IH]; simpl; intros acc Hd.
  - rewrite app_nil_r. reflexivity.
  - assert (Hk0 : hasOwnProperty acc k0 = false).
    { rewrite <- lookup_existsb.
      clear IH. induction (keys acc) as [|a ks IHks]; simpl in *; [reflexivity|].
      apply andb_true_iff in Hd as [Ha Hd]. rewrite (IHks Hd), orb_false_r.
      apply negb_true_iff in Ha. rewrite existsb_app in Ha.
      apply orb_false_iff in Ha as [_ Ha]. simpl in Ha.
      apply orb_false_iff in Ha as [Ha _]. rewrite String.eqb_sym. exact Ha. }
    assert (Hk : forall v, keys (obj_set k0 v acc) = keys acc ++ [k0]).
    { intros v. rewrite keys_set, Hk0. reflexivity. }
    destruct (isControlled p k0); rewrite IH; rewrite Hk, <- app_assoc; simpl;
      solve [reflexivity | exact Hd].
Qed.

(** The combined state has the fields of the internal state, in order. *)
Lemma getState_keys (st : Obj) :
  obj_wf st = true -> keys (getState p st) = keys st.
Proof. intros Hwf. unfold getState. rewrite getState_keys_fold; [reflexivity|exact Hwf]. Qed.

Variables state combinedState c : Obj.

Lemma removeControlled_fold (k : string) (ks : list string) (acc : Obj) :
  obj_lookup k
    (fold_left
       (fun newChanges stateKey =>
          if negb (isControlled p stateKey)
          then obj_set stateKey
                 (if hasOwnProperty c stateKey
                  then obj_get stateKey c
                  else obj_get stateKey combinedState)
                 newChanges
          else newChanges) ks acc) =
  if existsb (String.eqb k) ks && negb (isControlled p k)
  then Some (if hasOwnProperty c k then obj_get k c else obj_get k combinedState)
  else obj_lookup k acc.
Proof.
  revert acc.
  induction ks as [|k0 ks IH]; simpl; intros acc; [reflexivity|].
  rewrite IH.
  destruct (String.eqb_spec k k0) as [<-|Hne]; simpl.
  - destruct (isControlled p k); simpl.
    + rewrite andb_false_r. reflexivity.
    + rewrite andb_true_r, lookup_set, String.eqb_refl.
      destruct (existsb (String.eqb k) ks); reflexivity.
  - destruct (existsb (String.eqb k) ks && negb (isControlled p k)); [reflexivity|].
    destruct (isControlled p k0); simpl; [reflexivity|].
    rewrite lookup_set. destruct (String.eqb_spec k k0); [congruence|reflexivity].
Qed.

(** What the write set holds, field by field. *)
Lemma removeControlled_lookup (k : string) :
  obj_lookup k (removeControlled p state combinedState c) =
  if hasOwnProperty state k && negb (isControlled p k)
  then Some (if hasOwnProperty c k then obj_get k c else obj_get k combinedState)
  else None.
Proof.
  unfold removeControlled. rewrite removeControlled_fold, lookup_existsb. reflexivity.
Qed.

Lemma removeControlled_wf :
  obj_wf (removeControlled p state combinedState c) = true.
Proof.
  unfold removeControlled.
  assert (H : obj_wf (@nil (string * Value)) = true) by reflexivity.
  revert H. generalize (@nil (string * Value)).
  induction (keys state) as [|k0 ks IH]; simpl; intros acc Hacc; [exact Hacc|].
  apply IH. destruct (isControlled p k0); simpl; [exact Hacc|].
  apply wf_set. exact Hacc.
Qed.

End CoreFacts.

(** ** Facts about the apply pipeline *)

Section PipelineFacts.

Variable changes : Changes.
Variable callback : Instance -> list Event.
Variable this : Instance.

Lemma internalSetState_props :
  props (fst (internalSetState changes callback this)) = props this.
Proof.
  unfold internalSetState, setState, updater.
  destruct (length _); reflexivity.
Qed.

Lemma internalSetState_initialState :
  initialState (fst (internalSetState changes callback this)) = initialState this.
Proof.
  unfold internalSetState, setState, updater.
  destruct (length _); reflexivity.
Qed.

Lemma internalSetState_trace :
  snd (internalSetState changes callback this) =
  Call (FnProp "onStateChange")
    [VObj (authoritative changes this);
     VObj (state (fst (internalSetState changes callback this)))]
  :: callback (fst (internalSetState changes callback this)).
Proof.
  unfold authoritative, internalSetState, setState, updater.
  destruct (length _); reflexivity.
Qed.

(** An empty write set leaves the instance as it is. *)
Lemma internalSetState_null :
  snd (updater (props this) changes (state this)) = None ->
  fst (internalSetState changes callback this) = this.
Proof.
  unfold internalSetState, setState, updater. simpl.
  destruct (length _); [reflexivity|discriminate].
Qed.

(** The internal state after the pipeline, field by field. *)
Lemma internalSetState_lookup (k : string) :
  obj_lookup k (state (fst (internalSetState changes callback this))) =
  if hasOwnProperty (state this) k && negb (isControlled (props this) k)
  then Some (written changes this k)
  else obj_lookup k (state this).
Proof.
  unfold written, authoritative, currentState.
  unfold internalSetState, setState, updater. simpl.
  set (combinedState := getState (props this) (state this)).
  set (allChanges := stateReducer (props this) combinedState _).
  set (stateToSet := removeControlled (props this) (state this) combinedState allChanges).
  assert (Hl := removeControlled_lookup (props this) (state this) combinedState allChanges k).
  fold stateToSet in Hl.
  destruct (length (keys stateToSet)) eqn:Hlen; simpl.
  - destruct stateToSet; [|discriminate]. simpl in Hl.
    destruct (hasOwnProperty (state this) k && negb (isControlled (props this) k));
      [discriminate|reflexivity].
  - rewrite lookup_assign by apply removeControlled_wf.
    fold stateToSet. rewrite Hl.
    destruct (hasOwnProperty (state this) k && negb (isControlled (props this) k));
      reflexivity.
Qed.

(** The pipeline never adds, drops or reorders a field. *)
Lemma internalSetState_keys :
  keys (state (fst (internalSetState changes callback this))) = keys (state this).
Proof.
  unfold internalSetState, setState, updater. simpl.
  set (combinedState := getState (props this) (state this)).
  set (allChanges := stateReducer (props this) combinedState _).
  destruct (length _); simpl; [reflexivity|].
  apply keys_assign. intros k Hk.
  unfold hasOwnProperty in Hk. rewrite removeControlled_lookup in Hk.
  destruct (hasOwnProperty (state this) k); [reflexivity|discriminate].
Qed.

Lemma internalSetState_hasOwn (k : string) :
  hasOwnProperty (state (fst (internalSetState changes callback this))) k
  = hasOwnProperty (state this) k.
Proof. rewrite <- !lookup_existsb, internalSetState_keys. reflexivity. Qed.

Lemma internalSetState_wf :
  obj_wf (state (fst (internalSetState changes callback this)))
  = obj_wf (state this).
Proof. unfold obj_wf. rewrite internalSetState_keys. reflexivity. Qed.

End PipelineFacts.

(** ** [src/exercises-final/12.js]: the operations *)

Section OperationFacts.

Import Final12.

Lemma step_props (op : Op) (this : Instance) :
  props (fst (step op this)) = props this.
Proof. destruct op; apply internalSetState_props. Qed.

Lemma step_initialState (op : Op) (this : Instance) :
  initialState (fst (step op this)) = initialState this.
Proof. destruct op; apply internalSetState_initialState. Qed.

Lemma step_keys (op : Op) (this : Instance) :
  keys (state (fst (step op this))) = keys (state this).
Proof. destruct op; apply internalSetState_keys. Qed.

Lemma run_cons (op : Op) (ops : list Op) (this : Instance) :
  run (op :: ops) this =
  (fst (run ops (fst (step op this))),
   snd (step op this) ++ snd (run ops (fst (step op this)))).
Proof.
  simpl. destruct (step op this) as [this1 t1]. simpl.
  destruct (run ops this1) as [this2 t2]. reflexivity.
Qed.

Lemma run_props (ops : list Op) (this : Instance) :
  props (fst (run ops this)) = props this.
Proof.
  revert this. induction ops as [|op ops IH]; intros this; [reflexivity|].
  rewrite run_cons. simpl. rewrite IH. apply step_props.
Qed.

Lemma run_initialState (ops : list Op) (this : Instance) :
  initialState (fst (run ops this)) = initialState this.
Proof.
  revert this. induction ops as [|op ops IH]; intros this; [reflexivity|].
  rewrite run_cons. simpl. rewrite IH. apply step_initialState.
Qed.

Lemma run_keys (ops : list Op) (this : Instance) :
  keys (state (fst (run ops this))) = keys (state this).
Proof.
  revert this. induction ops as [|op ops IH]; intros this; [reflexivity|].
  rewrite run_cons. simpl. rewrite IH. apply step_keys.
Qed.

Lemma run_hasOwn (ops : list Op) (this : Instance) (k : string) :
  hasOwnProperty (state (fst (run ops this))) k = hasOwnProperty (state this) k.
Proof. rewrite <- !lookup_existsb, run_keys. reflexivity. Qed.

(** Reading a controlled field of [this.getState()]. *)
Lemma currentState_controlled (this : Instance) (k : string) :
  hasOwnProperty (state this) k = true ->
  isControlled (props this) k = true ->
  obj_get k (currentState this) = props_get (props this) k.
Proof.
  intros Hown Hc. unfold obj_get, currentState, getState.
  rewrite getState_fold_controlled by assumption. rewrite Hown. reflexivity.
Qed.

(** Reading an uncontrolled field of [this.getState()]. *)
Lemma currentState_uncontrolled (this : Instance) (k : string) :
  obj_wf (state this) = true ->
  isControlled (props this) k = false ->
  obj_get k (currentState this) = obj_get k (state this).
Proof.
  intros Hwf Hc. unfold obj_get, currentState.
  rewrite getState_lookup by assumption. rewrite Hc.
  destruct (obj_lookup k (state this)); reflexivity.
Qed.

(** The internal value of an uncontrolled field after the pipeline. *)
Lemma internalSetState_uncontrolled
    (changes : Changes) (callback : Instance -> list Event)
    (this : Instance) (k : string) :
  hasOwnProperty (state this) k = true ->
  isControlled (props this) k = false ->
  obj_get k (state (fst (internalSetState changes callback this))) =
  written changes this k.
Proof.
  intros Hown Hc. unfold obj_get.
  rewrite internalSetState_lookup, Hown, Hc. reflexivity.
Qed.

(** The internal value of a controlled field after the pipeline. *)
Lemma internalSetState_controlled
    (changes : Changes) (callback : Instance -> list Event)
    (this : Instance) (k : string) :
  isControlled (props this) k = true ->
  obj_lookup k (state (fst (internalSetState changes callback this))) =
  obj_lookup k (state this).
Proof.
  intros Hc. rewrite internalSetState_lookup, Hc, andb_false_r. reflexivity.
Qed.

(** With a reducer that returns the proposed record, [toggle] negates an
    uncontrolled [on]. *)
Lemma toggle_uncontrolled_on (arg : option Obj) (this : Instance) :
  obj_wf (state this) = true ->
  hasOwnProperty (state this) "on" = true ->
  isControlled (props this) "on" = false ->
  (forall s c, stateReducer (props this) s c = c) ->
  obj_get "on" (state (fst (toggle arg this))) =
  VBool (negb (truthy (obj_get "on" (state this)))).
Proof.
  intros Hwf Hown Hc Hred. unfold toggle.
  rewrite internalSetState_uncontrolled by assumption.
  unfold written, authoritative, updater. simpl. rewrite Hred.
  unfold toggleChanges. cbn [hasOwnProperty obj_lookup String.eqb Ascii.eqb Bool.eqb].
  unfold obj_get at 1. cbn [obj_lookup String.eqb Ascii.eqb Bool.eqb].
  fold (currentState this).
  rewrite currentState_uncontrolled by assumption. reflexivity.
Qed.

(** [reset] writes the initial value back to an uncontrolled [on]. *)
Lemma reset_uncontrolled_on (this : Instance) :
  hasOwnProperty (state this) "on" = true ->
  hasOwnProperty (initialState this) "on" = true ->
  isControlled (props this) "on" = false ->
  (forall s c, stateReducer (props this) s c = c) ->
  obj_get "on" (state (fst (reset this))) = obj_get "on" (initialState this).
Proof.
  intros Hown Hinit Hc Hred. unfold reset.
  rewrite internalSetState_uncontrolled by assumption.
  unfold written, authoritative, updater. simpl. rewrite Hred.
  unfold resetChanges, obj_get.
  rewrite hasOwn_set, Hinit, lookup_set. reflexivity.
Qed.

Lemma toggles_uncontrolled_on (args : list (option Obj)) (this : Instance) (x : bool) :
  obj_wf (state this) = true ->
  isControlled (props this) "on" = false ->
  (forall s c, stateReducer (props this) s c = c) ->
  obj_lookup "on" (state this) = Some (VBool x) ->
  obj_lookup "on" (state (fst (run (map OpToggle args) this))) =
  Some (VBool (xorb x (Nat.odd (length args)))).
Proof.
  revert this x.
  induction args as [|arg args IH]; intros this x Hwf Hc Hred Hon.
  - simpl. rewrite xorb_false_r. exact Hon.
  - change (map OpToggle (arg :: args)) with (OpToggle arg :: map OpToggle args).
    rewrite run_cons. cbn [fst step].
    assert (Hown : hasOwnProperty (state this) "on" = true)
      by (unfold hasOwnProperty; rewrite Hon; reflexivity).
    assert (Hnext := toggle_uncontrolled_on arg this Hwf Hown Hc Hred).
    assert (Hown' : hasOwnProperty (state (fst (toggle arg this))) "on" = true)
      by (unfold toggle; rewrite internalSetState_hasOwn; exact Hown).
    rewrite (IH (fst (toggle arg this)) (negb x)).
    + cbn [length]. rewrite Nat.odd_succ, <- Nat.negb_odd.
      destruct x, (Nat.odd (length args)); reflexivity.
    + unfold toggle. rewrite internalSetState_wf. exact Hwf.
    + unfold toggle. rewrite internalSetState_props. exact Hc.
    + unfold toggle. rewrite internalSetState_props. exact Hred.
    + unfold hasOwnProperty in Hown'. unfold obj_get in Hnext.
      rewrite Hon in Hnext.
      destruct (obj_lookup "on" (state (fst (toggle arg this)))); [|discriminate].
      rewrite Hnext. reflexivity.
Qed.

(** A controlled field of [this.getState()] after an operation. *)
Lemma currentState_lookup_controlled (this : Instance) (k : string) :
  isControlled (props this) k = true ->
  obj_lookup k (currentState this) =
  if hasOwnProperty (state this) k then Some (props_get (props this) k) else None.
Proof.
  intros Hc. unfold currentState, getState.
  rewrite getState_fold_controlled by assumption. reflexivity.
Qed.

(** An object in which no key can be found has no entries. *)
Lemma lookup_none_nil (o : Obj) :
  (forall k, obj_lookup k o = None) -> o = [].
Proof.
  destruct o as [|[k0 v0] o]; [reflexivity|]. intros H.
  specialize (H k0). simpl in H. rewrite String.eqb_refl in H. discriminate.
Qed.

(** Every field of the state controlled: the write set is empty. *)
Lemma removeControlled_all_controlled (p : Props) (st combinedState c : Obj) :
  forallb (isControlled p) (keys st) = true ->
  removeControlled p st combinedState c = [].
Proof.
  intros Hall. apply lookup_none_nil. intros k.
  rewrite removeControlled_lookup.
  destruct (hasOwnProperty st k) eqn:Hown; [|reflexivity].
  rewrite <- lookup_existsb in Hown. apply existsb_exists in Hown as [k' [Hin Heq]].
  apply String.eqb_eq in Heq. subst k'.
  rewrite forallb_forall in Hall. rewrite (Hall k Hin). reflexivity.
Qed.

(** Props that read alike give the same combined state and write set. *)
Lemma getState_ext (p1 p2 : Props) (st : Obj) :
  (forall k, props_get p1 k = props_get p2 k) ->
  getState p1 st = getState p2 st.
Proof.
  intros Hext. unfold getState. generalize (@nil (string * Value)).
  induction st as [|[k v] st IH]; simpl; intros acc; [reflexivity|].
  unfold isControlled. rewrite Hext. apply IH.
Qed.

Lemma removeControlled_ext (p1 p2 : Props) (st combinedState c : Obj) :
  (forall k, props_get p1 k = props_get p2 k) ->
  removeControlled p1 st combinedState c = removeControlled p2 st combinedState c.
Proof.
  intros Hext. unfold removeControlled. generalize (@nil (string * Value)).
  induction (keys st) as [|k ks IH]; simpl; intros acc; [reflexivity|].
  unfold isControlled. rewrite Hext. apply IH.
Qed.

Lemma internalSetState_alike
    (changes : Changes) (cb1 cb2 : Instance -> list Event) (this1 this2 : Instance) :
  alike this1 this2 ->
  (forall that1 that2, alike that1 that2 -> cb1 that1 = cb2 that2) ->
  alike (fst (internalSetState changes cb1 this1))
        (fst (internalSetState changes cb2 this2))
  /\ snd (internalSetState changes cb1 this1)
     = snd (internalSetState changes cb2 this2).
Proof.
  intros (Hinit & Hst & Hext & Hred) Hcb.
  assert (Halike :
    alike (fst (internalSetState changes cb1 this1))
          (fst (internalSetState changes cb2 this2))).
  { unfold internalSetState, setState, updater. simpl.
    rewrite <- Hst, <- (getState_ext _ _ _ Hext).
    set (combinedState := getState (props this1) (state this1)).
    assert (Hc : stateReducer (props this1) combinedState
                   match changes with ChangesObj c => c | ChangesFun c => c combinedState end
                 = stateReducer (props this2) combinedState
                   match changes with ChangesObj c => c | ChangesFun c => c combinedState end)
      by apply Hred.
    rewrite <- Hc, <- (removeControlled_ext _ _ _ _ _ Hext).
    destruct (length _); simpl; repeat split; assumption. }
  split; [exact Halike|].
  assert (Hauth : authoritative changes this1 = authoritative changes this2).
  { unfold authoritative, updater. simpl.
    rewrite <- Hst, <- (getState_ext _ _ _ Hext). apply Hred. }
  rewrite !internalSetState_trace, Hauth.
  assert (Hst' := proj1 (proj2 Halike)). rewrite Hst'.
  f_equal. apply Hcb. exact Halike.
Qed.

Lemma currentState_alike (this1 this2 : Instance) :
  alike this1 this2 -> currentState this1 = currentState this2.
Proof.
  intros (_ & Hst & Hext & _). unfold currentState.
  rewrite Hst. apply getState_ext. exact Hext.
Qed.

Lemma step_alike (op : Op) (this1 this2 : Instance) :
  alike this1 this2 ->
  alike (fst (step op this1)) (fst (step op this2))
  /\ snd (step op this1) = snd (step op this2).
Proof.
  intros Halike. destruct op as [arg|]; cbn [step]; unfold toggle, reset.
  - apply internalSetState_alike; [exact Halike|].
    intros that1 that2 H. rewrite (currentState_alike _ _ H). reflexivity.
  - assert (Hinit : resetChanges this1 = resetChanges this2).
    { unfold resetChanges. destruct Halike as (-> & _). reflexivity. }
    rewrite Hinit.
    apply internalSetState_alike; [exact Halike|].
    intros that1 that2 H. rewrite (currentState_alike _ _ H). reflexivity.
Qed.

Lemma run_alike (ops : list Op) (this1 this2 : Instance) :
  alike this1 this2 ->
  alike (fst (run ops this1)) (fst (run ops this2))
  /\ snd (run ops this1) = snd (run ops this2).
Proof.
  revert this1 this2.
  induction ops as [|op ops IH]; intros this1 this2 Halike.
  - split; [exact Halike|reflexivity].
  - rewrite !run_cons. simpl.
    destruct (step_alike op _ _ Halike) as [Hstep Htrace].
    destruct (IH _ _ Hstep) as [Hrun Htrace'].
    split; [exact Hrun|]. rewrite Htrace, Htrace'. reflexivity.
Qed.

(** [on: undefined] on the element reads like no [on] at all. *)
Lemma props_get_undefined_on (a : Obj) (r : Obj -> Obj -> Obj) (k : string) :
  props_get (mkProps (obj_set "on" VUndefined a) r) k
  = props_get (mkProps (obj_rest "on" a) r) k.
Proof.
  unfold props_get, obj_get. simpl attrs.
  rewrite lookup_set, lookup_rest.
  destruct (String.eqb k "on"); reflexivity.
Qed.

Lemma step_pipeline_cases (op : Op) (this : Instance) :
  exists callback, step op this = internalSetState (proposal op this) callback this.
Proof. destruct op; eexists; reflexivity. Qed.

End OperationFacts.

(** ** The claims *)

Section Claims.

Import Final12.

(** C1. A field of the state that is controlled reads, through [getState],
    as the value the owner supplied, after any run of [toggle] and [reset]
    calls (the empty run included), whatever the internal state holds. With
    [on] controlled and fixed at [true] this is: [getState().on] is [true]
    after every such run. *)
Theorem controlled_field_reads_owner_value
    (this : Instance) (k : string) (ops : list Op) :
  hasOwnProperty (state this) k = true ->
  isControlled (props this) k = true ->
  obj_get k (currentState (fst (run ops this))) = props_get (props this) k.
Proof.
  intros Hown Hc.
  rewrite <- (run_props ops this).
  apply currentState_controlled.
  - rewrite run_hasOwn. exact Hown.
  - rewrite run_props. exact Hc.
Qed.

Lemma controlled_field_reads_owner_value_witness :
  let this := construct (mkProps [("on", VBool true)] defaultStateReducer) in
  let ops := [OpToggle None; OpReset; OpToggle None] in
  obj_get "on" (currentState (fst (run ops this))) = VBool true
  /\ obj_get "on" (state (fst (run ops this))) = VBool false.
Proof.
  split.
  - apply (controlled_field_reads_owner_value
             (construct (mkProps [("on", VBool true)] defaultStateReducer)) "on"
             [OpToggle None; OpReset; OpToggle None]); reflexivity.
  - reflexivity.
Defined.

(** C2. Constructed with a boolean [initialOn], the default reducer and [on]
    uncontrolled (as it is when no field is controlled), after [N] calls of
    [toggle] the field [getState().on] is [initialOn] xor ([N] is odd), for
    every [N], and a [reset] after them brings it back to [initialOn]. *)
Theorem toggle_parity_then_reset
    (a : Obj) (b : bool) (args : list (option Obj)) :
  props_get (mkProps a defaultStateReducer) "initialOn" = VBool b ->
  isControlled (mkProps a defaultStateReducer) "on" = false ->
  obj_get "on"
    (currentState
       (fst (run (map OpToggle args) (construct (mkProps a defaultStateReducer)))))
  = VBool (xorb b (Nat.odd (length args)))
  /\ obj_get "on"
       (currentState
          (fst (reset
             (fst (run (map OpToggle args)
                     (construct (mkProps a defaultStateReducer)))))))
     = VBool b.
Proof.
  intros Hinit Hc.
  set (p := mkProps a defaultStateReducer) in *.
  set (this := fst (run (map OpToggle args) (construct p))).
  assert (Hprops : props this = p) by (subst this; apply run_props).
  assert (Hkeys : keys (state this) = keys (state (construct p)))
    by (subst this; apply run_keys).
  assert (Hwf : obj_wf (state this) = true)
    by (unfold obj_wf; rewrite Hkeys; reflexivity).
  assert (Hown : hasOwnProperty (state this) "on" = true)
    by (rewrite <- lookup_existsb, Hkeys; reflexivity).
  assert (Hon : obj_lookup "on" (state this)
                = Some (VBool (xorb b (Nat.odd (length args))))).
  { subst this. apply toggles_uncontrolled_on; try reflexivity; try assumption.
    simpl. fold p. rewrite Hinit. reflexivity. }
  split.
  - rewrite currentState_uncontrolled; [|assumption|rewrite Hprops; assumption].
    unfold obj_get. rewrite Hon. reflexivity.
  - rewrite currentState_uncontrolled.
    + rewrite reset_uncontrolled_on; try assumption.
      * subst this. rewrite run_initialState. simpl. fold p. unfold obj_get. simpl.
        exact Hinit.
      * subst this. rewrite run_initialState. reflexivity.
      * rewrite Hprops. exact Hc.
      * rewrite Hprops. reflexivity.
    + unfold reset. rewrite internalSetState_wf. exact Hwf.
    + unfold reset. rewrite internalSetState_props, Hprops. exact Hc.
Qed.

Lemma toggle_parity_then_reset_witness :
  let p := mkProps [("initialOn", VBool true)] defaultStateReducer in
  let this := fst (run (map OpToggle [None; None; None]) (construct p)) in
  obj_get "on" (currentState this) = VBool false
  /\ obj_get "on" (currentState (fst (reset this))) = VBool true.
Proof.
  apply (toggle_parity_then_reset [("initialOn", VBool true)] true [None; None; None]);
    reflexivity.
Defined.

(** C3. With the reducer that always returns [{on: true, type: changes.type}]
    and [on] uncontrolled, [getState().on] is [true] after any one call of
    [toggle], whatever [on] was before: the reducer's record is applied, not
    the negation that [toggle] proposed. *)
Theorem reducer_is_authoritative (this : Instance) (arg : option Obj) :
  (forall s c, stateReducer (props this) s c = forceOn s c) ->
  isControlled (props this) "on" = false ->
  obj_wf (state this) = true ->
  hasOwnProperty (state this) "on" = true ->
  obj_get "on" (currentState (fst (toggle arg this))) = VBool true.
Proof.
  intros Hred Hc Hwf Hown. unfold toggle.
  rewrite currentState_uncontrolled.
  - rewrite internalSetState_uncontrolled by assumption.
    unfold written, authoritative, updater. simpl. rewrite Hred. reflexivity.
  - rewrite internalSetState_wf. exact Hwf.
  - rewrite internalSetState_props. exact Hc.
Qed.

Lemma reducer_is_authoritative_witness :
  let this :=
    with_state (construct (mkProps [] forceOn))
      [("on", VBool true); ("toggle", VFun FnToggle); ("reset", VFun FnReset);
       ("getTogglerProps", VFun FnGetTogglerProps)] in
  obj_get "on" (currentState this) = VBool true
  /\ obj_get "on" (currentState (fst (toggle None this))) = VBool true.
Proof.
  split; [reflexivity|].
  apply (reducer_is_authoritative
           (with_state (construct (mkProps [] forceOn))
              [("on", VBool true); ("toggle", VFun FnToggle); ("reset", VFun FnReset);
               ("getTogglerProps", VFun FnGetTogglerProps)]) None); reflexivity.
Defined.

(** C4, as the claim has it, fails. With [on] controlled at [false], [toggle]
    proposes [on: true] and the internal [on] stays [false]; and once the
    owner takes control of an instance whose internal [on] is [true],
    [reset] proposes the initial [false] and the internal [on] stays [true]. *)
Lemma controlled_internal_update_counterexample :
  let this := construct (mkProps [("on", VBool false)] defaultStateReducer) in
  let that :=
    rerender (mkProps [("on", VBool true)] defaultStateReducer)
      (fst (toggle None (construct (mkProps [] defaultStateReducer)))) in
  (isControlled (props this) "on" = true
   /\ obj_get "on" (authoritative (proposal (OpToggle None) this) this) = VBool true
   /\ obj_get "on" (state this) = VBool false
   /\ obj_get "on" (state (fst (toggle None this))) = VBool false)
  /\ (isControlled (props that) "on" = true
      /\ obj_get "on" (authoritative (proposal OpReset that) that) = VBool false
      /\ obj_get "on" (state that) = VBool true
      /\ obj_get "on" (state (fst (reset that))) = VBool true).
Proof. repeat split. Qed.

(** C4, amended. While a field is controlled, [toggle] and [reset] leave its
    internally tracked value as it was, and the field reads the same through
    [getState] before and after the call. *)
Theorem controlled_field_internal_unchanged
    (this : Instance) (op : Op) (k : string) :
  isControlled (props this) k = true ->
  obj_lookup k (state (fst (step op this))) = obj_lookup k (state this)
  /\ obj_lookup k (currentState (fst (step op this))) = obj_lookup k (currentState this).
Proof.
  intros Hc. split.
  - destruct op; apply internalSetState_controlled; exact Hc.
  - rewrite !currentState_lookup_controlled; rewrite ?step_props; try exact Hc.
    rewrite <- !lookup_existsb, step_keys. reflexivity.
Qed.

Lemma controlled_field_internal_unchanged_witness :
  let this := construct (mkProps [("on", VBool false)] defaultStateReducer) in
  obj_lookup "on" (state (fst (step (OpToggle None) this))) = obj_lookup "on" (state this)
  /\ obj_lookup "on" (currentState (fst (step (OpToggle None) this)))
     = obj_lookup "on" (currentState this).
Proof.
  apply (controlled_field_internal_unchanged
           (construct (mkProps [("on", VBool false)] defaultStateReducer))
           (OpToggle None) "on"); reflexivity.
Defined.

(** C5, as the claim has it, fails: the markers are not the strings
    ['toggle'] and ['reset'], and a reducer that returns a record without
    [type] has that record reported. *)
Lemma change_type_marker_counterexample :
  let this := construct (mkProps [] defaultStateReducer) in
  reportedChanges (snd (toggle None this))
    = [VObj [("type", VStr "__toggle_toggle__"); ("on", VBool true)]]
  /\ obj_get "type" [("type", VStr "__toggle_toggle__"); ("on", VBool true)]
     <> VStr "toggle"
  /\ map (fun c => match c with VObj o => obj_get "type" o | _ => VUndefined end)
       (reportedChanges (snd (reset this)))
     = [VStr "__toggle_reset__"]
  /\ VStr "__toggle_reset__" <> VStr "reset"
  /\ reportedChanges
       (snd (toggle None (construct (mkProps [] (fun _ _ => [("on", VBool true)])))))
     = [VObj [("on", VBool true)]].
Proof. repeat split; discriminate. Qed.

(** C5, amended. With a reducer that returns the proposed [type] and keeps
    the [on] field, as the default one does, [onStateChange] receives for a
    [toggle] without override one record, of type
    [Toggle.stateChangeTypes.toggle], the string ['__toggle_toggle__'], and
    for a [reset] one record, of type [Toggle.stateChangeTypes.reset], the
    string ['__toggle_reset__']; both records have the [on] field, whether
    or not [on] is controlled. *)
Theorem reported_record_type_and_on (this : Instance) :
  (forall s c, obj_get "type" (stateReducer (props this) s c) = obj_get "type" c) ->
  (forall s c, hasOwnProperty c "on" = true ->
               hasOwnProperty (stateReducer (props this) s c) "on" = true) ->
  hasOwnProperty (initialState this) "on" = true ->
  (reportedChanges (snd (toggle None this))
     = [VObj (authoritative (proposal (OpToggle None) this) this)]
   /\ obj_get "type" (authoritative (proposal (OpToggle None) this) this)
      = VStr "__toggle_toggle__"
   /\ hasOwnProperty (authoritative (proposal (OpToggle None) this) this) "on" = true)
  /\ (reportedChanges (snd (reset this))
       = [VObj (authoritative (proposal OpReset this) this)]
      /\ obj_get "type" (authoritative (proposal OpReset this) this)
         = VStr "__toggle_reset__"
      /\ hasOwnProperty (authoritative (proposal OpReset this) this) "on" = true).
Proof.
  intros Hty Hon Hinit. split; (split; [|split]).
  - unfold toggle. rewrite internalSetState_trace. reflexivity.
  - unfold authoritative, updater. simpl. rewrite Hty. reflexivity.
  - unfold authoritative, updater. simpl. apply Hon. reflexivity.
  - unfold reset. rewrite internalSetState_trace. reflexivity.
  - unfold authoritative, updater. simpl. rewrite Hty.
    unfold resetChanges, obj_get. rewrite lookup_set. reflexivity.
  - unfold authoritative, updater. simpl. apply Hon.
    unfold resetChanges. rewrite hasOwn_set, Hinit. reflexivity.
Qed.

Lemma reported_record_type_and_on_witness :
  let this := construct (mkProps [("on", VBool true)] defaultStateReducer) in
  (reportedChanges (snd (toggle None this))
     = [VObj (authoritative (proposal (OpToggle None) this) this)]
   /\ obj_get "type" (authoritative (proposal (OpToggle None) this) this)
      = VStr "__toggle_toggle__"
   /\ hasOwnProperty (authoritative (proposal (OpToggle None) this) this) "on" = true)
  /\ (reportedChanges (snd (reset this))
       = [VObj (authoritative (proposal OpReset this) this)]
      /\ obj_get "type" (authoritative (proposal OpReset this) this)
         = VStr "__toggle_reset__"
      /\ hasOwnProperty (authoritative (proposal OpReset this) this) "on" = true).
Proof.
  apply (reported_record_type_and_on
           (construct (mkProps [("on", VBool true)] defaultStateReducer)));
    [reflexivity | intros s c H; exact H | reflexivity].
Defined.

(** C6. Each call of [toggle] or [reset] calls [onStateChange] exactly once,
    with the state as it stands after the mutation attempt; when every field
    of the state is controlled the write set is empty, [setState] gets
    [null], the instance is left as it was, and the call is made all the
    same. *)
Theorem onStateChange_exactly_once (this : Instance) (op : Op) :
  calls "onStateChange" (snd (step op this))
  = [Call (FnProp "onStateChange")
       [VObj (authoritative (proposal op this) this);
        VObj (state (fst (step op this)))]]
  /\ (forallb (isControlled (props this)) (keys (state this)) = true ->
      snd (updater (props this) (proposal op this) (state this)) = None
      /\ fst (step op this) = this).
Proof.
  split.
  - destruct op; cbn [step]; unfold toggle, reset;
      rewrite internalSetState_trace; reflexivity.
  - intros Hall.
    assert (Hnull : snd (updater (props this) (proposal op this) (state this)) = None).
    { unfold updater. cbn [snd].
      rewrite removeControlled_all_controlled by exact Hall. reflexivity. }
    split; [exact Hnull|].
    destruct op; cbn [step]; unfold toggle, reset;
      apply internalSetState_null; exact Hnull.
Qed.

Lemma onStateChange_exactly_once_witness :
  let this :=
    construct
      (mkProps [("on", VBool true); ("toggle", VNum 1); ("reset", VNum 1);
                ("getTogglerProps", VNum 1)] defaultStateReducer) in
  length (calls "onStateChange" (snd (step OpReset this))) = 1
  /\ snd (updater (props this) (proposal OpReset this) (state this)) = None
  /\ fst (step OpReset this) = this.
Proof.
  split; [reflexivity|].
  apply (proj2 (onStateChange_exactly_once
                  (construct
                     (mkProps [("on", VBool true); ("toggle", VNum 1); ("reset", VNum 1);
                               ("getTogglerProps", VNum 1)] defaultStateReducer))
                  OpReset)).
  reflexivity.
Defined.

(** C7. In every application of the pipeline the write set has a value for
    a field exactly when the field is a field of the current internal state
    and is uncontrolled; the value is the authoritative record's when the
    record has the field and the combined state's otherwise; [setState] gets
    that write set, or [null] when it is empty; and afterwards each field of
    the internal state holds the write set's value when there is one and its
    old value when there is none, as for every controlled field. *)
Theorem write_set_fields
    (changes : Changes) (callback : Instance -> list Event)
    (this : Instance) (k : string) :
  obj_lookup k
    (removeControlled (props this) (state this) (currentState this)
       (authoritative changes this))
  = (if hasOwnProperty (state this) k && negb (isControlled (props this) k)
     then Some (if hasOwnProperty (authoritative changes this) k
                then obj_get k (authoritative changes this)
                else obj_get k (currentState this))
     else None)
  /\ snd (updater (props this) changes (state this))
     = match length (keys (removeControlled (props this) (state this)
                             (currentState this) (authoritative changes this))) with
       | O => None
       | S _ => Some (removeControlled (props this) (state this)
                        (currentState this) (authoritative changes this))
       end
  /\ obj_lookup k (state (fst (internalSetState changes callback this)))
     = match obj_lookup k
               (removeControlled (props this) (state this) (currentState this)
                  (authoritative changes this)) with
       | Some v => Some v
       | None => obj_lookup k (state this)
       end.
Proof.
  split; [apply removeControlled_lookup|].
  split; [reflexivity|].
  rewrite internalSetState_lookup, removeControlled_lookup.
  destruct (hasOwnProperty (state this) k && negb (isControlled (props this) k));
    reflexivity.
Qed.

(** In [src/exercises-final/12.js], after the pipeline, [toggle] calls
    [onToggle] once, with [getState().on] read on the state just written,
    and [reset] does the same with [onReset]. *)
Lemma callback_payload_final12 (this : Instance) (arg : option Obj) :
  calls "onToggle" (snd (toggle arg this))
  = [Call (FnProp "onToggle") [obj_get "on" (currentState (fst (toggle arg this)))]]
  /\ calls "onReset" (snd (reset this))
     = [Call (FnProp "onReset") [obj_get "on" (currentState (fst (reset this)))]].
Proof.
  unfold toggle, reset. rewrite !internalSetState_trace. split; reflexivity.
Qed.

(** In [src/unnamed/part_000] the two callbacks get the combined state
    itself. *)
Lemma provider_payload_is_state (this : Instance) (arg : option Obj) :
  calls "onToggle" (snd (Provider.toggle arg this))
  = [Call (FnProp "onToggle") [VObj (currentState (fst (Provider.toggle arg this)))]]
  /\ calls "onReset" (snd (Provider.reset this))
     = [Call (FnProp "onReset") [VObj (currentState (fst (Provider.reset this)))]].
Proof.
  unfold Provider.toggle, Provider.reset. rewrite !internalSetState_trace.
  split; reflexivity.
Qed.

(** C8, in [src/unnamed/part_000]: constructed with default props, [toggle]
    and [reset] hand [onToggle] and [onReset] the whole combined state, an
    object, where the claim and [src/exercises-final/12.js] have the boolean
    [getState().on]. *)
Theorem callback_payload_provider :
  let this := construct (mkProps [] defaultStateReducer) in
  calls "onToggle" (snd (Provider.toggle None this))
  = [Call (FnProp "onToggle")
       [VObj [("on", VBool true); ("toggle", VFun FnToggle); ("reset", VFun FnReset);
              ("getTogglerProps", VFun FnGetTogglerProps)]]]
  /\ calls "onReset" (snd (Provider.reset this))
     = [Call (FnProp "onReset")
          [VObj [("on", VBool false); ("toggle", VFun FnToggle); ("reset", VFun FnReset);
                 ("getTogglerProps", VFun FnGetTogglerProps)]]]
  /\ calls "onToggle" (snd (Final12.toggle None this))
     = [Call (FnProp "onToggle") [VBool true]].
Proof. repeat split. Qed.

(** C9, as the claim has it, fails: an [aria-expanded] field among the
    overrides replaces the flag. *)
Lemma toggler_props_aria_counterexample :
  let this := construct (mkProps [] defaultStateReducer) in
  let overrides :=
    [("onClick", VFun (FnOwner "f")); ("data-x", VNum 1);
     ("aria-expanded", VBool true)] in
  obj_get "on" (currentState this) = VBool false
  /\ obj_get "aria-expanded" (getTogglerProps (Some overrides) this) = VBool true.
Proof. split; reflexivity. Qed.

(** C9, amended. For overrides whose [onClick] is a function [f], the
    descriptor's [onClick] is a handler that calls [f] with the handler's
    arguments and then [toggle()]; its [aria-expanded] is the override's
    when the overrides have that field and the current [getState().on]
    otherwise; every other field of the overrides is passed through
    unchanged. *)
Theorem toggler_props_descriptor
    (this : Instance) (o : Obj) (f : Fn) (args : list Value) :
  obj_wf o = true ->
  obj_lookup "onClick" o = Some (VFun f) ->
  obj_lookup "onClick" (getTogglerProps (Some o) this)
  = Some (VFun (FnCallAll [VFun f; VFun FnToggleThunk]))
  /\ invoke (FnCallAll [VFun f; VFun FnToggleThunk]) args this
     = match invoke f args this with
       | Some (this1, t1) =>
           Some (fst (toggle None this1), t1 ++ snd (toggle None this1))
       | None => None
       end
  /\ obj_lookup "aria-expanded" (getTogglerProps (Some o) this)
     = Some match obj_lookup "aria-expanded" o with
            | Some v => v
            | None => obj_get "on" (currentState this)
            end
  /\ (forall k, k <> "onClick" -> k <> "aria-expanded" ->
      obj_lookup k (getTogglerProps (Some o) this) = obj_lookup k o).
Proof.
  intros Hwf Hclick.
  assert (Hd : forall k,
    obj_lookup k (getTogglerProps (Some o) this)
    = match (if String.eqb k "onClick" then None else obj_lookup k o) with
      | Some v => Some v
      | None =>
          obj_lookup k
            [("onClick", VFun (FnCallAll [VFun f; VFun FnToggleThunk]));
             ("aria-expanded", obj_get "on" (currentState this))]
      end).
  { intros k. unfold getTogglerProps.
    rewrite lookup_assign by (apply wf_rest; exact Hwf).
    rewrite lookup_rest. unfold obj_get at 1. rewrite Hclick. reflexivity. }
  split; [rewrite Hd; reflexivity|].
  split.
  - cbn [invoke truthy].
    destruct (invoke f args this) as [[this1 t1]|]; [|reflexivity].
    destruct (toggle None this1) as [this2 t2]. cbn [fst snd].
    rewrite app_nil_r. reflexivity.
  - split.
    + rewrite Hd. cbn [String.eqb Ascii.eqb Bool.eqb].
      destruct (obj_lookup "aria-expanded" o); reflexivity.
    + intros k Hk1 Hk2. rewrite Hd.
      destruct (String.eqb_spec k "onClick") as [|_]; [contradiction|].
      destruct (obj_lookup k o); [reflexivity|].
      cbn [obj_lookup].
      destruct (String.eqb_spec k "onClick"); [contradiction|].
      destruct (String.eqb_spec k "aria-expanded"); [contradiction|reflexivity].
Qed.

Lemma toggler_props_descriptor_witness :
  let this := construct (mkProps [] defaultStateReducer) in
  let o := [("onClick", VFun (FnOwner "f")); ("data-x", VNum 1)] in
  invoke (FnCallAll [VFun (FnOwner "f"); VFun FnToggleThunk]) [VStr "click"] this
  = Some (fst (toggle None this),
          Call (FnOwner "f") [VStr "click"] :: snd (toggle None this))
  /\ obj_lookup "aria-expanded" (getTogglerProps (Some o) this) = Some (VBool false)
  /\ obj_lookup "data-x" (getTogglerProps (Some o) this) = Some (VNum 1).
Proof.
  destruct (toggler_props_descriptor
              (construct (mkProps [] defaultStateReducer))
              [("onClick", VFun (FnOwner "f")); ("data-x", VNum 1)]
              (FnOwner "f") [VStr "click"] eq_refl eq_refl)
    as (_ & Hcall & Haria & Hrest).
  split; [exact Hcall|]. split; [exact Haria|].
  apply Hrest; discriminate.
Defined.

(** C10. A field is controlled exactly when the prop of that name is not
    [undefined], and for a field of the state that prop is what the owner
    wrote on the element, no default standing in for it. An owner who writes
    [on: undefined] has [on] uncontrolled, and every run of operations then
    gives the states and the trace it gives when the owner writes no [on] at
    all; with the default reducer the internal value is what [getState]
    reads, and [toggle] negates it. *)
Theorem controlled_iff_prop_defined
    (p : Props) (k : string)
    (a : Obj) (r : Obj -> Obj -> Obj) (ops : list Op) (arg : option Obj) :
  hasOwnProperty (mkInitialState p) k = true ->
  (isControlled p k = true <-> props_get p k <> VUndefined)
  /\ props_get p k = obj_get k (attrs p)
  /\ isControlled (mkProps (obj_set "on" VUndefined a) r) "on" = false
  /\ observe (run ops (construct (mkProps (obj_set "on" VUndefined a) r)))
     = observe (run ops (construct (mkProps (obj_rest "on" a) r)))
  /\ obj_get "on"
       (currentState
          (fst (run ops (construct (mkProps (obj_set "on" VUndefined a)
                                      defaultStateReducer)))))
     = obj_get "on"
         (state
            (fst (run ops (construct (mkProps (obj_set "on" VUndefined a)
                                        defaultStateReducer)))))
  /\ obj_get "on"
       (state
          (fst (toggle arg
             (fst (run ops (construct (mkProps (obj_set "on" VUndefined a)
                                         defaultStateReducer)))))))
     = VBool (negb (truthy (obj_get "on"
         (state
            (fst (run ops (construct (mkProps (obj_set "on" VUndefined a)
                                        defaultStateReducer)))))))).
Proof.
  intros Hfield.
  assert (Hunc : forall r', isControlled (mkProps (obj_set "on" VUndefined a) r') "on"
                            = false).
  { intros r'. unfold isControlled, props_get, obj_get.
    cbn [existsb callbackProps String.eqb Ascii.eqb Bool.eqb orb attrs].
    rewrite lookup_set. reflexivity. }
  split.
  { unfold isControlled. destruct (props_get p k); simpl; split;
      congruence || discriminate || tauto. }
  split.
  { unfold hasOwnProperty, mkInitialState in Hfield. cbn [obj_lookup] in Hfield.
    unfold props_get.
    destruct (String.eqb_spec k "on") as [->|_];
      [destruct (obj_get "on" (attrs p)); reflexivity|].
    destruct (String.eqb_spec k "toggle") as [->|_];
      [destruct (obj_get "toggle" (attrs p)); reflexivity|].
    destruct (String.eqb_spec k "reset") as [->|_];
      [destruct (obj_get "reset" (attrs p)); reflexivity|].
    destruct (String.eqb_spec k "getTogglerProps") as [->|_];
      [destruct (obj_get "getTogglerProps" (attrs p)); reflexivity|].
    discriminate. }
  split; [apply Hunc|].
  split.
  { assert (Halike : alike (construct (mkProps (obj_set "on" VUndefined a) r))
                           (construct (mkProps (obj_rest "on" a) r))).
    { unfold alike, construct, mkInitialState. cbn [initialState state props].
      rewrite props_get_undefined_on.
      repeat split. intros k'. apply props_get_undefined_on. }
    destruct (run_alike ops _ _ Halike) as [(Hinit & Hst & _) Htrace].
    unfold observe. rewrite Hinit, Hst, Htrace. reflexivity. }
  set (p1 := mkProps (obj_set "on" VUndefined a) defaultStateReducer).
  set (this := fst (run ops (construct p1))).
  assert (Hprops : props this = p1) by (subst this; apply run_props).
  assert (Hkeys : keys (state this) = keys (state (construct p1)))
    by (subst this; apply run_keys).
  assert (Hwf : obj_wf (state this) = true)
    by (unfold obj_wf; rewrite Hkeys; reflexivity).
  assert (Hc : isControlled (props this) "on" = false)
    by (rewrite Hprops; apply Hunc).
  split.
  - apply currentState_uncontrolled; assumption.
  - apply toggle_uncontrolled_on; try assumption.
    + rewrite <- lookup_existsb, Hkeys. reflexivity.
    + rewrite Hprops. reflexivity.
Qed.

Lemma controlled_iff_prop_defined_witness :
  let ops := [OpToggle None; OpReset; OpToggle None] in
  let a := [("initialOn", VBool true); ("on", VBool true)] in
  isControlled (mkProps a defaultStateReducer) "on" = true
  /\ isControlled (mkProps (obj_set "on" VUndefined a) defaultStateReducer) "on" = false
  /\ observe (run ops (construct (mkProps (obj_set "on" VUndefined a) defaultStateReducer)))
     = observe (run ops (construct (mkProps (obj_rest "on" a) defaultStateReducer))).
Proof.
  destruct (controlled_iff_prop_defined
              (mkProps [("initialOn", VBool true); ("on", VBool true)] defaultStateReducer)
              "on" [("initialOn", VBool true); ("on", VBool true)] defaultStateReducer
              [OpToggle None; OpReset; OpToggle None] None eq_refl)
    as (Hiff & _ & Hunc & Hsame & _).
  split; [apply Hiff; discriminate|].
  split; [exact Hunc|exact Hsame].
Defined.

End Claims.

(** ** More of the coordinator *)

Section CombinedState.

Variable p : Props.

Lemma set_fresh (k : string) (v : Value) (o : Obj) :
  hasOwnProperty o k = false -> obj_set k v o = o ++ [(k, v)].
Proof.
  unfold hasOwnProperty.
  induction o as [|[k0 v0] o IH]; simpl; intros Hk; [reflexivity|].
  destruct (String.eqb k k0); [discriminate|]. rewrite IH by exact Hk. reflexivity.
Qed.

Lemma distinct_app_fresh (ks1 ks2 : list string) (k : string) :
  distinct (ks1 ++ k :: ks2) = true ->
  existsb (String.eqb k) ks1 = false /\ distinct ((ks1 ++ [k]) ++ ks2) = true.
Proof.
  intros Hd. split.
  - induction ks1 as [|a ks1 IH]; simpl in *; [reflexivity|].
    apply andb_true_iff in Hd as [Ha Hd]. rewrite (IH Hd), orb_false_r.
    apply negb_true_iff in Ha. rewrite existsb_app in Ha.
    apply orb_false_iff in Ha as [_ Ha]. simpl in Ha.
    apply orb_false_iff in Ha as [Ha _]. rewrite String.eqb_sym. exact Ha.
  - rewrite <- app_assoc. exact Hd.
Qed.

Lemma getState_entries_fold (st acc : Obj) :
  distinct (keys acc ++ keys st) = true ->
  fold_left
    (fun combinedState entry =>
       let (key, value) := entry : string * Value in
       if isControlled p key
       then obj_set key (props_get p key) combinedState
       else obj_set key value combinedState) st acc
  = acc ++ map (combineEntry p) st.
Proof.
  revert acc.
  induction st as [|[k0 v0] st IH]; simpl; intros acc Hd.
  - rewrite app_nil_r. reflexivity.
  - destruct (distinct_app_fresh _ _ _ Hd) as [Hfresh Hd'].
    rewrite lookup_existsb in Hfresh.
    assert (Hkeys : forall v, keys (acc ++ [(k0, v)]) = keys acc ++ [k0])
      by (intros v; unfold keys; rewrite map_app; reflexivity).
    unfold combineEntry at 1. cbn [fst snd].
    destruct (isControlled p k0);
      rewrite set_fresh by exact Hfresh;
      (rewrite IH; [rewrite <- app_assoc; reflexivity | rewrite Hkeys; exact Hd']).
Qed.

(** X1. For a state whose keys are distinct, the combined state is the state
    entry by entry, in the same order: the value of a controlled field is
    replaced by the prop, every other entry is kept. *)
Theorem combined_state_entries (st : Obj) :
  obj_wf st = true ->
  getState p st = map (combineEntry p) st.
Proof.
  intros Hwf. unfold getState.
  rewrite getState_entries_fold by exact Hwf. reflexivity.
Qed.

Lemma getState_map (st : Obj) :
  obj_wf st = true -> getState p st = map (combineEntry p) st.
Proof.
  intros Hwf. unfold getState.
  rewrite getState_entries_fold by exact Hwf. reflexivity.
Qed.

Lemma keys_map_combine (st : Obj) : keys (map (combineEntry p) st) = keys st.
Proof. unfold keys. rewrite map_map. reflexivity. Qed.

(** X2. Combining twice is combining once: [getState(getState(state))] is
    [getState(state)]. *)
Theorem combined_state_idempotent (st : Obj) :
  obj_wf st = true ->
  getState p (getState p st) = getState p st.
Proof.
  intros Hwf. rewrite (getState_map st Hwf).
  rewrite getState_map by (unfold obj_wf; rewrite keys_map_combine; exact Hwf).
  rewrite map_map. apply map_ext. intros [k v]. unfold combineEntry. cbn [fst snd].
  destruct (isControlled p k); reflexivity.
Qed.

(** X3. When none of the state's fields is controlled the combined state is
    the state itself. *)
Theorem combined_state_uncontrolled (st : Obj) :
  obj_wf st = true ->
  forallb (fun k => negb (isControlled p k)) (keys st) = true ->
  getState p st = st.
Proof.
  intros Hwf Hall. rewrite (getState_map st Hwf).
  rewrite <- (map_id st) at 2. apply map_ext_in. intros [k v] Hin.
  unfold combineEntry. cbn [fst snd].
  rewrite forallb_forall in Hall.
  assert (Hk : negb (isControlled p k) = true)
    by (apply Hall; unfold keys; apply (in_map fst _ _ Hin)).
  apply negb_true_iff in Hk. rewrite Hk. reflexivity.
Qed.

End CombinedState.

Lemma combined_state_entries_witness :
  getState (mkProps [("on", VBool true)] defaultStateReducer)
    [("on", VBool false); ("toggle", VFun FnToggle)]
  = [("on", VBool true); ("toggle", VFun FnToggle)].
Proof.
  apply (combined_state_entries (mkProps [("on", VBool true)] defaultStateReducer)
           [("on", VBool false); ("toggle", VFun FnToggle)]).
  reflexivity.
Defined.

Lemma combined_state_idempotent_witness :
  let p := mkProps [("on", VBool true)] defaultStateReducer in
  let st := [("on", VBool false); ("toggle", VFun FnToggle)] in
  getState p (getState p st) = getState p st.
Proof.
  apply (combined_state_idempotent (mkProps [("on", VBool true)] defaultStateReducer)
           [("on", VBool false); ("toggle", VFun FnToggle)]).
  reflexivity.
Defined.

Lemma combined_state_uncontrolled_witness :
  let p := mkProps [("initialOn", VBool true)] defaultStateReducer in
  getState p (mkInitialState p) = mkInitialState p.
Proof.
  apply (combined_state_uncontrolled
           (mkProps [("initialOn", VBool true)] defaultStateReducer)
           (mkInitialState (mkProps [("initialOn", VBool true)] defaultStateReducer)));
    reflexivity.
Defined.

Section Runs.

Import Final12.

(** Two objects with the same keys, distinct, and the same value under each
    key are the same object. *)
Lemma obj_ext (o1 o2 : Obj) :
  obj_wf o1 = true ->
  keys o1 = keys o2 ->
  (forall k, obj_lookup k o1 = obj_lookup k o2) ->
  o1 = o2.
Proof.
  unfold obj_wf. revert o2.
  induction o1 as [|[k1 v1] o1 IH]; intros [|[k2 v2] o2] Hwf Hkeys Hl;
    try discriminate; [reflexivity|].
  simpl in Hkeys. injection Hkeys as Hk Hkeys. subst k2.
  simpl in Hwf. apply andb_true_iff in Hwf as [Hfresh Hwf].
  apply negb_true_iff in Hfresh.
  assert (Hv := Hl k1). simpl in Hv. rewrite String.eqb_refl in Hv.
  injection Hv as Hv. subst v2. f_equal.
  apply IH; [exact Hwf|exact Hkeys|].
  intros k. specialize (Hl k). simpl in Hl.
  destruct (String.eqb_spec k k1) as [Heq|_]; [clear Hl; subst k|exact Hl].
  rewrite lookup_existsb in Hfresh.
  assert (Hfresh2 : hasOwnProperty o2 k1 = false).
  { rewrite <- lookup_existsb, <- Hkeys, lookup_existsb. exact Hfresh. }
  unfold hasOwnProperty in Hfresh, Hfresh2.
  destruct (obj_lookup k1 o1); [discriminate|].
  destruct (obj_lookup k1 o2); [discriminate|reflexivity].
Qed.

Lemma lookup_own (k : string) (o : Obj) :
  hasOwnProperty o k = true -> obj_lookup k o = Some (obj_get k o).
Proof.
  unfold hasOwnProperty, obj_get.
  destruct (obj_lookup k o); [reflexivity|discriminate].
Qed.

(** The fields of a state made by the constructor. *)
Lemma initial_field_cases (p : Props) (k : string) :
  hasOwnProperty (mkInitialState p) k = true ->
  k = "on" \/ k = "toggle" \/ k = "reset" \/ k = "getTogglerProps".
Proof.
  unfold hasOwnProperty, mkInitialState. cbn [obj_lookup].
  destruct (String.eqb_spec k "on"); [auto|].
  destruct (String.eqb_spec k "toggle"); [auto|].
  destruct (String.eqb_spec k "reset"); [auto|].
  destruct (String.eqb_spec k "getTogglerProps"); [auto|discriminate].
Qed.

(** X4. Whatever the reducer returns, a run of operations leaves the props
    and [initialState] of the instance alone and keeps the fields of the
    state, in their order: the pipeline adds no field and drops none. *)
Theorem run_keeps_fields (this : Instance) (ops : list Op) :
  props (fst (run ops this)) = props this
  /\ initialState (fst (run ops this)) = initialState this
  /\ keys (state (fst (run ops this))) = keys (state this).
Proof.
  split; [apply run_props|]. split; [apply run_initialState|apply run_keys].
Qed.

(** One operation under the default reducer, on an instance that came from
    the constructor: every field that is not [on], and [on] itself while it
    is controlled, keeps the value the constructor gave it. *)
Lemma step_frame (p : Props) (this : Instance) (op : Op) :
  props this = p ->
  (forall s c, stateReducer p s c = c) ->
  initialState this = mkInitialState p ->
  keys (state this) = keys (mkInitialState p) ->
  (forall k, (k = "on" -> isControlled p "on" = true) ->
             obj_lookup k (state this) = obj_lookup k (mkInitialState p)) ->
  forall k, (k = "on" -> isControlled p "on" = true) ->
            obj_lookup k (state (fst (step op this))) = obj_lookup k (mkInitialState p).
Proof.
  intros Hp Hred Hinit Hkeys Hframe k Hk.
  assert (Hwf : obj_wf (state this) = true)
    by (unfold obj_wf; rewrite Hkeys; reflexivity).
  assert (Hsame : forall k', hasOwnProperty (state this) k'
                             = hasOwnProperty (mkInitialState p) k')
    by (intros k'; rewrite <- !lookup_existsb, Hkeys; reflexivity).
  destruct (step_pipeline_cases op this) as [callback Hstep]. rewrite Hstep.
  rewrite internalSetState_lookup.
  destruct (hasOwnProperty (state this) k) eqn:Hown; cbn [andb];
    [|apply Hframe; exact Hk].
  destruct (isControlled (props this) k) eqn:Hc; cbn [negb];
    [apply Hframe; exact Hk|].
  assert (Hnot_on : k <> "on").
  { intros ->. rewrite Hp in Hc. rewrite (Hk eq_refl) in Hc. discriminate. }
  assert (Hfield : hasOwnProperty (mkInitialState p) k = true)
    by (rewrite <- Hsame; exact Hown).
  rewrite (lookup_own k (mkInitialState p) Hfield). f_equal.
  unfold written, authoritative, updater. cbn [fst]. rewrite Hp, Hred.
  destruct op as [arg|]; cbn [proposal].
  - assert (Habsent : hasOwnProperty (toggleChanges (toggleType arg)
                                        (getState p (state this))) k = false).
    { unfold hasOwnProperty, toggleChanges. cbn [obj_lookup].
      destruct (initial_field_cases p k Hfield) as [-> | [-> | [-> | ->]]];
        [contradiction | reflexivity ..]. }
    rewrite Habsent.
    rewrite currentState_uncontrolled by assumption.
    assert (Hl := Hframe k Hk). rewrite (lookup_own _ _ Hown) in Hl.
    rewrite (lookup_own _ _ Hfield) in Hl. injection Hl as Hl. exact Hl.
  - unfold resetChanges. rewrite hasOwn_set, Hinit, Hfield, orb_true_r.
    unfold obj_get at 1. rewrite lookup_set.
    destruct (String.eqb_spec k "type") as [->|_];
      [destruct (initial_field_cases p "type" Hfield) as [?|[?|[?|?]]]; discriminate|].
    rewrite (lookup_own _ _ Hfield). reflexivity.
Qed.

Lemma run_frame (p : Props) (ops : list Op) (this : Instance) :
  props this = p ->
  (forall s c, stateReducer p s c = c) ->
  initialState this = mkInitialState p ->
  keys (state this) = keys (mkInitialState p) ->
  (forall k, (k = "on" -> isControlled p "on" = true) ->
             obj_lookup k (state this) = obj_lookup k (mkInitialState p)) ->
  forall k, (k = "on" -> isControlled p "on" = true) ->
            obj_lookup k (state (fst (run ops this))) = obj_lookup k (mkInitialState p).
Proof.
  revert this.
  induction ops as [|op ops IH]; intros this Hp Hred Hinit Hkeys Hframe k Hk.
  - apply Hframe. exact Hk.
  - rewrite run_cons. cbn [fst]. apply IH; try assumption.
    + rewrite step_props. exact Hp.
    + rewrite step_initialState. exact Hinit.
    + rewrite step_keys. exact Hkeys.
    + apply step_frame; assumption.
Qed.

(** X5. Under the default reducer, no run of operations on a constructed
    instance changes a field of the state other than [on]: the bound
    [toggle], [reset] and [getTogglerProps] stay what the constructor put
    there. *)
Theorem default_reducer_changes_only_on (a : Obj) (ops : list Op) (k : string) :
  k <> "on" ->
  obj_lookup k (state (fst (run ops (construct (mkProps a defaultStateReducer)))))
  = obj_lookup k (mkInitialState (mkProps a defaultStateReducer)).
Proof.
  intros Hk. apply run_frame; try reflexivity.
  intros Hon. contradiction.
Qed.

Lemma default_reducer_changes_only_on_witness :
  obj_lookup "toggle"
    (state (fst (run [OpToggle None; OpReset; OpToggle None]
                   (construct (mkProps [("toggle", VNum 1)] defaultStateReducer)))))
  = Some (VFun FnToggle).
Proof.
  apply (default_reducer_changes_only_on [("toggle", VNum 1)]
           [OpToggle None; OpReset; OpToggle None] "toggle").
  discriminate.
Defined.

End Runs.

Section Operations.

Import Final12.

(** X6. [toggle] writes the negation of the truthiness of [on], so an
    uncontrolled [on] is a boolean after one call whatever it was, and after
    two calls it is the truthiness of the value it started from (with the
    default reducer). *)
Theorem toggle_twice_truthiness (this : Instance) (arg1 arg2 : option Obj) :
  obj_wf (state this) = true ->
  hasOwnProperty (state this) "on" = true ->
  isControlled (props this) "on" = false ->
  (forall s c, stateReducer (props this) s c = c) ->
  obj_get "on" (state (fst (toggle arg1 this)))
  = VBool (negb (truthy (obj_get "on" (state this))))
  /\ obj_get "on" (state (fst (toggle arg2 (fst (toggle arg1 this)))))
     = VBool (truthy (obj_get "on" (state this))).
Proof.
  intros Hwf Hown Hc Hred.
  assert (H1 := toggle_uncontrolled_on arg1 this Hwf Hown Hc Hred).
  split; [exact H1|].
  rewrite toggle_uncontrolled_on.
  - rewrite H1. cbn [truthy]. rewrite negb_involutive. reflexivity.
  - unfold toggle. rewrite internalSetState_wf. exact Hwf.
  - unfold toggle. rewrite internalSetState_hasOwn. exact Hown.
  - unfold toggle. rewrite internalSetState_props. exact Hc.
  - unfold toggle. rewrite internalSetState_props. exact Hred.
Qed.

Lemma toggle_twice_truthiness_witness :
  let this := construct (mkProps [("initialOn", VStr "yes")] defaultStateReducer) in
  obj_get "on" (state this) = VStr "yes"
  /\ obj_get "on" (state (fst (toggle None this))) = VBool false
  /\ obj_get "on" (state (fst (toggle None (fst (toggle None this))))) = VBool true.
Proof.
  split; [reflexivity|].
  apply (toggle_twice_truthiness
           (construct (mkProps [("initialOn", VStr "yes")] defaultStateReducer))
           None None); reflexivity.
Defined.

(** X7. Under the default reducer, [reset] after any run of operations on a
    constructed instance makes the state the initial state again, field for
    field, whichever fields are controlled. *)
Theorem reset_restores_initial_state (a : Obj) (ops : list Op) :
  state (fst (reset (fst (run ops (construct (mkProps a defaultStateReducer))))))
  = mkInitialState (mkProps a defaultStateReducer).
Proof.
  set (p := mkProps a defaultStateReducer).
  set (this := fst (run ops (construct p))).
  assert (Hp : props this = p) by (subst this; apply run_props).
  assert (Hinit : initialState this = mkInitialState p)
    by (subst this; apply run_initialState).
  assert (Hkeys : keys (state this) = keys (mkInitialState p))
    by (subst this; apply run_keys).
  assert (Hframe : forall k, (k = "on" -> isControlled p "on" = true) ->
             obj_lookup k (state this) = obj_lookup k (mkInitialState p)).
  { subst this. apply run_frame; reflexivity. }
  assert (Hkeys' : keys (state (fst (reset this))) = keys (mkInitialState p))
    by (unfold reset; rewrite internalSetState_keys; exact Hkeys).
  apply obj_ext; [unfold obj_wf; rewrite Hkeys'; reflexivity|exact Hkeys'|].
  intros k.
  assert (Hcases : isControlled p "on" = true \/ isControlled p "on" = false)
    by (destruct (isControlled p "on"); auto).
  destruct Hcases as [Hc|Hc].
  - apply (step_frame p this OpReset); try assumption; try reflexivity.
    intros _. exact Hc.
  - destruct (String.eqb_spec k "on") as [->|Hne].
    + assert (Hown : hasOwnProperty (state this) "on" = true)
        by (rewrite <- lookup_existsb, Hkeys; reflexivity).
      assert (Hown' : hasOwnProperty (state (fst (reset this))) "on" = true)
        by (rewrite <- lookup_existsb, Hkeys'; reflexivity).
      rewrite (lookup_own _ _ Hown'), reset_uncontrolled_on; try assumption.
      * rewrite Hinit. reflexivity.
      * rewrite Hinit. reflexivity.
      * rewrite Hp. exact Hc.
      * rewrite Hp. reflexivity.
    + apply (step_frame p this OpReset); try assumption; try reflexivity.
      intros Hon. contradiction.
Qed.

Lemma removeControlled_agree (p : Props) (st combinedState c1 c2 : Obj) :
  (forall k, hasOwnProperty st k = true ->
             hasOwnProperty c1 k = hasOwnProperty c2 k /\ obj_get k c1 = obj_get k c2) ->
  removeControlled p st combinedState c1 = removeControlled p st combinedState c2.
Proof.
  intros Hagree. unfold removeControlled.
  assert (Hin : forall k, In k (keys st) ->
            hasOwnProperty c1 k = hasOwnProperty c2 k /\ obj_get k c1 = obj_get k c2).
  { intros k Hk. apply Hagree. rewrite <- lookup_existsb.
    apply existsb_exists. exists k. split; [exact Hk|apply String.eqb_refl]. }
  clear Hagree. generalize (@nil (string * Value)).
  induction (keys st) as [|k0 ks IH]; intros acc; [reflexivity|].
  cbn [fold_left].
  destruct (Hin k0 (or_introl eq_refl)) as [-> ->].
  apply IH. intros k Hk. apply Hin. right. exact Hk.
Qed.

(** X8. Under the default reducer the [type] given to [toggle] only labels
    the change: on a state that has no field named [type], the instance after
    the call is the same for every argument. *)
Theorem toggle_type_leaves_state (this : Instance) (arg1 arg2 : option Obj) :
  (forall s c, stateReducer (props this) s c = c) ->
  hasOwnProperty (state this) "type" = false ->
  fst (toggle arg1 this) = fst (toggle arg2 this).
Proof.
  intros Hred Htype.
  unfold toggle, internalSetState, setState, updater. cbn [fst snd].
  rewrite !Hred.
  rewrite (removeControlled_agree (props this) (state this)
             (getState (props this) (state this))
             (toggleChanges (toggleType arg1) (getState (props this) (state this)))
             (toggleChanges (toggleType arg2) (getState (props this) (state this)))).
  - reflexivity.
  - intros k Hk. unfold hasOwnProperty, obj_get, toggleChanges. cbn [obj_lookup].
    destruct (String.eqb_spec k "type") as [->|_]; [|split; reflexivity].
    rewrite Htype in Hk. discriminate.
Qed.

Lemma toggle_type_leaves_state_witness :
  let this := construct (mkProps [] defaultStateReducer) in
  fst (toggle (Some [("type", VStr "forced")]) this) = fst (toggle None this).
Proof.
  apply (toggle_type_leaves_state (construct (mkProps [] defaultStateReducer))
           (Some [("type", VStr "forced")]) None); reflexivity.
Defined.

(** X9. The updater hands [setState] a [null] update exactly when every
    field of the state is controlled (an empty state included). *)
Theorem updater_null_iff_all_controlled (p : Props) (changes : Changes) (st : Obj) :
  snd (updater p changes st) = None
  <-> forallb (isControlled p) (keys st) = true.
Proof.
  split.
  - intros Hnull. apply forallb_forall. intros k Hk.
    unfold updater in Hnull. cbn [snd] in Hnull.
    set (c := stateReducer p (getState p st) _) in Hnull.
    assert (Hl := removeControlled_lookup p st (getState p st) c k).
    destruct (removeControlled p st (getState p st) c) as [|e w]; [|discriminate].
    assert (Hown : hasOwnProperty st k = true).
    { rewrite <- lookup_existsb. apply existsb_exists.
      exists k. split; [exact Hk|apply String.eqb_refl]. }
    rewrite Hown in Hl. cbn [andb obj_lookup] in Hl.
    destruct (isControlled p k); [reflexivity|discriminate].
  - intros Hall. unfold updater. cbn [snd].
    rewrite removeControlled_all_controlled by exact Hall. reflexivity.
Qed.

Lemma updater_null_iff_all_controlled_witness :
  let p := mkProps [("on", VBool true)] defaultStateReducer in
  snd (updater p (ChangesObj []) [("on", VBool false)]) = None.
Proof.
  apply (proj2 (updater_null_iff_all_controlled
                  (mkProps [("on", VBool true)] defaultStateReducer)
                  (ChangesObj []) [("on", VBool false)])).
  reflexivity.
Defined.

(** X10. While every field of the state is controlled, no run of operations
    changes the instance at all. *)
Theorem all_controlled_run_changes_nothing (this : Instance) (ops : list Op) :
  forallb (isControlled (props this)) (keys (state this)) = true ->
  fst (run ops this) = this.
Proof.
  intros Hall. induction ops as [|op ops IH]; [reflexivity|].
  rewrite run_cons. cbn [fst].
  assert (Hstep : fst (step op this) = this).
  { destruct (step_pipeline_cases op this) as [callback Hstep]. rewrite Hstep.
    apply internalSetState_null. unfold updater. cbn [snd].
    rewrite removeControlled_all_controlled by exact Hall. reflexivity. }
  rewrite Hstep. exact IH.
Qed.

Lemma all_controlled_run_changes_nothing_witness :
  let this :=
    construct
      (mkProps [("on", VBool true); ("toggle", VNum 1); ("reset", VNum 1);
                ("getTogglerProps", VNum 1)] defaultStateReducer) in
  fst (run [OpToggle None; OpReset] this) = this.
Proof.
  apply (all_controlled_run_changes_nothing
           (construct
              (mkProps [("on", VBool true); ("toggle", VNum 1); ("reset", VNum 1);
                        ("getTogglerProps", VNum 1)] defaultStateReducer))
           [OpToggle None; OpReset]).
  reflexivity.
Defined.

Lemma calls_app (name : string) (t1 t2 : list Event) :
  calls name (t1 ++ t2) = calls name t1 ++ calls name t2.
Proof. unfold calls. apply filter_app. Qed.

(** X11. A run makes two calls for each operation: [onStateChange] once per
    operation, [onToggle] once per [toggle] and [onReset] once per [reset],
    and nothing else. *)
Theorem run_trace_counts (this : Instance) (ops : list Op) :
  length (snd (run ops this)) = 2 * length ops
  /\ length (calls "onStateChange" (snd (run ops this))) = length ops
  /\ length (calls "onToggle" (snd (run ops this))) = length (filter is_toggle ops)
  /\ length (calls "onReset" (snd (run ops this)))
     = length (filter (fun op => negb (is_toggle op)) ops).
Proof.
  revert this.
  induction ops as [|op ops IH]; intros this; [repeat split|].
  rewrite run_cons. cbn [snd].
  rewrite !calls_app, !length_app.
  destruct (IH (fst (step op this))) as (H0 & H1 & H2 & H3).
  rewrite H0, H1, H2, H3.
  destruct op; cbn [step]; unfold toggle, reset; rewrite internalSetState_trace;
    cbn; repeat split; rewrite ?Nat.add_0_r, ?Nat.add_succ_r; reflexivity.
Qed.

End Operations.

Section Handlers.

Import Final12.

Lemma andThen_ext (r : option (Instance * list Event))
    (k1 k2 : Instance -> option (Instance * list Event)) :
  (forall this, k1 this = k2 this) -> andThen r k1 = andThen r k2.
Proof. intros H. destruct r as [[this1 t1]|]; [|reflexivity]. simpl. rewrite H. reflexivity. Qed.

Lemma andThen_assoc (r : option (Instance * list Event))
    (k1 k2 : Instance -> option (Instance * list Event)) :
  andThen (andThen r k1) k2 = andThen r (fun this => andThen (k1 this) k2).
Proof.
  destruct r as [[this1 t1]|]; [|reflexivity]. simpl.
  destruct (k1 this1) as [[this2 t2]|]; [|reflexivity]. simpl.
  destruct (k2 this2) as [[this3 t3]|]; [|reflexivity].
  rewrite app_assoc. reflexivity.
Qed.

Lemma andThen_pure (this : Instance) (k : Instance -> option (Instance * list Event)) :
  andThen (Some (this, [])) k = k this.
Proof. simpl. destruct (k this) as [[this2 t2]|]; reflexivity. Qed.

(** One turn of [forEach] in [callAll]'s closure. *)
Lemma callAll_cons (fn : Value) (fns args : list Value) (this : Instance) :
  invoke (FnCallAll (fn :: fns)) args this
  = if truthy fn then
      match fn with
      | VFun g => andThen (invoke g args this) (invoke (FnCallAll fns) args)
      | _ => None
      end
    else invoke (FnCallAll fns) args this.
Proof.
  cbn [invoke]. destruct (truthy fn); [|reflexivity].
  destruct fn; reflexivity.
Qed.

(** X12. [callAll] runs its functions left to right: the handler made of
    two lists of functions behaves as the handler of the first list followed
    by the handler of the second, and throws where either throws. *)
Theorem callAll_app (fns1 fns2 : list Value) (args : list Value) (this : Instance) :
  invoke (FnCallAll (fns1 ++ fns2)) args this
  = andThen (invoke (FnCallAll fns1) args this) (invoke (FnCallAll fns2) args).
Proof.
  revert this.
  induction fns1 as [|fn fns1 IH]; intros this.
  - change (invoke (FnCallAll []) args this) with (Some (this, @nil Event)).
    rewrite andThen_pure. reflexivity.
  - change ((fn :: fns1) ++ fns2) with (fn :: (fns1 ++ fns2)).
    rewrite !callAll_cons.
    destruct (truthy fn); [|apply IH].
    destruct fn; try reflexivity.
    rewrite andThen_assoc. apply andThen_ext. exact IH.
Qed.

Lemma callAll_thunk (args : list Value) (this : Instance) :
  invoke (FnCallAll [VFun FnToggleThunk]) args this = Some (toggle None this).
Proof.
  rewrite callAll_cons. cbn [truthy invoke andThen].
  destruct (toggle None this) as [this1 t1]. rewrite app_nil_r. reflexivity.
Qed.


(** The fields of the descriptor: the overrides but [onClick], over the two
    fields the method writes. *)
Lemma descriptor_lookup (this : Instance) (o : Obj) (k : string) :
  obj_wf o = true ->
  obj_lookup k (getTogglerProps (Some o) this)
  = match (if String.eqb k "onClick" then None else obj_lookup k o) with
    | Some v => Some v
    | None =>
        obj_lookup k
          [("onClick", VFun (FnCallAll [obj_get "onClick" o; VFun FnToggleThunk]));
           ("aria-expanded", obj_get "on" (currentState this))]
    end.
Proof.
  intros Hwf. unfold getTogglerProps.
  rewrite lookup_assign by (apply wf_rest; exact Hwf).
  rewrite lookup_rest. reflexivity.
Qed.


(** X13. Whatever the overrides hold under [onClick], the descriptor's
    [onClick] is the handler that [getTogglerProps] builds, never the
    override itself; and when the override is missing or falsy (or there are
    no overrides at all), invoking that handler is exactly [toggle()]: the
    arguments of the click do not reach [toggle]. *)
Theorem handler_without_onClick (this : Instance) (arg : option Obj) :
  obj_wf (match arg with Some o => o | None => [] end) = true ->
  obj_lookup "onClick" (getTogglerProps arg this)
  = Some (VFun (FnCallAll
                  [obj_get "onClick" (match arg with Some o => o | None => [] end);
                   VFun FnToggleThunk]))
  /\ (truthy (obj_get "onClick" (match arg with Some o => o | None => [] end)) = false ->
      forall args that,
        invoke (FnCallAll
                  [obj_get "onClick" (match arg with Some o => o | None => [] end);
                   VFun FnToggleThunk]) args that
        = Some (toggle None that)).
Proof.
  intros Hwf.
  assert (Hsame : getTogglerProps arg this
                  = getTogglerProps (Some match arg with Some o => o | None => [] end) this)
    by (destruct arg; reflexivity).
  split.
  - rewrite Hsame, descriptor_lookup by exact Hwf. reflexivity.
  - intros Hfalsy args that. rewrite callAll_cons, Hfalsy. apply callAll_thunk.
Qed.

Lemma handler_without_onClick_witness :
  let this := construct (mkProps [] defaultStateReducer) in
  invoke (FnCallAll [VUndefined; VFun FnToggleThunk])
    [VObj [("type", VStr "click")]] this
  = Some (toggle None this).
Proof.
  apply (proj2 (handler_without_onClick
                  (construct (mkProps [] defaultStateReducer))
                  (Some [("on", VBool false)]) eq_refl) eq_refl).
Defined.



Lemma run_controlled_lookup (this : Instance) (ops : list Op) (k : string) :
  isControlled (props this) k = true ->
  obj_lookup k (state (fst (run ops this))) = obj_lookup k (state this).
Proof.
  revert this. induction ops as [|op ops IH]; intros this Hc; [reflexivity|].
  rewrite run_cons. cbn [fst]. rewrite IH by (rewrite step_props; exact Hc).
  destruct op; apply internalSetState_controlled; exact Hc.
Qed.

(** X15. [render] hands [this.state] to the context, and a controlled field
    of it never moves: what a consumer reads there during a run is the value
    the field had when control began, while [getState] reads the prop. *)
Theorem context_value_under_control (this : Instance) (ops : list Op) (k : string) :
  hasOwnProperty (state this) k = true ->
  isControlled (props this) k = true ->
  obj_get k (contextValue (fst (run ops this))) = obj_get k (contextValue this)
  /\ obj_get k (currentState (fst (run ops this))) = props_get (props this) k.
Proof.
  intros Hown Hc. split.
  - unfold contextValue, obj_get. rewrite run_controlled_lookup by exact Hc.
    reflexivity.
  - rewrite <- (run_props ops this). apply currentState_controlled.
    + rewrite run_hasOwn. exact Hown.
    + rewrite run_props. exact Hc.
Qed.

Lemma context_value_under_control_witness :
  let this := construct (mkProps [("on", VBool true)] defaultStateReducer) in
  let ops := [OpToggle None; OpToggle None; OpToggle None] in
  obj_get "on" (contextValue (fst (run ops this))) = VBool false
  /\ obj_get "on" (currentState (fst (run ops this))) = VBool true.
Proof.
  apply (context_value_under_control
           (construct (mkProps [("on", VBool true)] defaultStateReducer))
           [OpToggle None; OpToggle None; OpToggle None] "on"); reflexivity.
Defined.

(** X16. A [type] given to [toggle] that is not [undefined] is the type of
    the record that reaches [stateReducer], and with the default reducer the
    record [onStateChange] gets is that type with the negated [on] of the
    combined state. *)
Theorem toggle_reports_given_type (this : Instance) (o : Obj) :
  (forall s c, stateReducer (props this) s c = c) ->
  obj_get "type" o <> VUndefined ->
  reportedChanges (snd (toggle (Some o) this))
  = [VObj [("type", obj_get "type" o);
           ("on", VBool (negb (truthy (obj_get "on" (currentState this)))))]].
Proof.
  intros Hred Hty. unfold toggle. rewrite internalSetState_trace.
  cbn [reportedChanges flat_map String.eqb Ascii.eqb Bool.eqb app].
  unfold authoritative, updater. cbn [fst]. rewrite Hred.
  unfold toggleChanges, toggleType, currentState.
  destruct (obj_get "type" o); try reflexivity. contradiction.
Qed.

Lemma toggle_reports_given_type_witness :
  reportedChanges
    (snd (toggle (Some [("type", VStr "forced")])
            (construct (mkProps [("on", VBool true)] defaultStateReducer))))
  = [VObj [("type", VStr "forced"); ("on", VBool false)]].
Proof.
  apply (toggle_reports_given_type
           (construct (mkProps [("on", VBool true)] defaultStateReducer))
           [("type", VStr "forced")]); [reflexivity|discriminate].
Defined.

(** X19. On an instance that came from the constructor and ran under the
    default reducer, [NavSwitch] gets its props from the bound
    [getTogglerProps]: their [on] is the internal [on], their
    [aria-expanded] is [getState().on], and the two agree while [on] is
    uncontrolled. *)
Theorem navSwitch_props (a : Obj) (ops : list Op) :
  NavSwitch (fst (run ops (construct (mkProps a defaultStateReducer))))
  = Some (getTogglerProps
            (Some [("on", obj_get "on"
                     (state (fst (run ops (construct (mkProps a defaultStateReducer))))))])
            (fst (run ops (construct (mkProps a defaultStateReducer)))))
  /\ obj_get "on"
       (getTogglerProps
          (Some [("on", obj_get "on"
                   (state (fst (run ops (construct (mkProps a defaultStateReducer))))))])
          (fst (run ops (construct (mkProps a defaultStateReducer)))))
     = obj_get "on" (state (fst (run ops (construct (mkProps a defaultStateReducer)))))
  /\ obj_get "aria-expanded"
       (getTogglerProps
          (Some [("on", obj_get "on"
                   (state (fst (run ops (construct (mkProps a defaultStateReducer))))))])
          (fst (run ops (construct (mkProps a defaultStateReducer)))))
     = obj_get "on"
         (currentState (fst (run ops (construct (mkProps a defaultStateReducer)))))
  /\ (isControlled (mkProps a defaultStateReducer) "on" = false ->
      obj_get "on"
        (currentState (fst (run ops (construct (mkProps a defaultStateReducer)))))
      = obj_get "on" (state (fst (run ops (construct (mkProps a defaultStateReducer)))))).
Proof.
  set (p := mkProps a defaultStateReducer).
  set (this := fst (run ops (construct p))).
  assert (Hmethod : obj_lookup "getTogglerProps" (state this)
                    = Some (VFun FnGetTogglerProps)).
  { subst this. rewrite (run_frame p ops (construct p)); try reflexivity.
    intros Hon. discriminate. }
  split.
  { unfold NavSwitch, contextValue, obj_get at 1. rewrite Hmethod. reflexivity. }
  split; [reflexivity|]. split; [reflexivity|].
  intros Hc. apply currentState_uncontrolled.
  - unfold obj_wf. subst this. rewrite run_keys. reflexivity.
  - subst this. rewrite run_props. exact Hc.
Qed.

Lemma navSwitch_props_witness :
  let this :=
    fst (run [OpToggle None] (construct (mkProps [] defaultStateReducer))) in
  obj_get "on" (currentState this) = obj_get "on" (state this).
Proof.
  apply (proj2 (proj2 (proj2 (navSwitch_props [] [OpToggle None])))).
  reflexivity.
Defined.

(** X20. A reducer can veto a change: when the record it returns has none of
    the state's fields, the state after the pipeline is the state before,
    while [onStateChange] and the callback are still called. *)
Theorem reducer_veto
    (changes : Changes) (callback : Instance -> list Event) (this : Instance) :
  obj_wf (state this) = true ->
  (forall k, hasOwnProperty (state this) k = true ->
             hasOwnProperty (authoritative changes this) k = false) ->
  state (fst (internalSetState changes callback this)) = state this
  /\ snd (internalSetState changes callback this)
     = Call (FnProp "onStateChange")
         [VObj (authoritative changes this); VObj (state this)]
       :: callback (fst (internalSetState changes callback this)).
Proof.
  intros Hwf Hnone.
  assert (Hstate : state (fst (internalSetState changes callback this)) = state this).
  { apply obj_ext.
    - rewrite internalSetState_wf. exact Hwf.
    - apply internalSetState_keys.
    - intros k. rewrite internalSetState_lookup.
      destruct (hasOwnProperty (state this) k) eqn:Hown; [|reflexivity].
      destruct (isControlled (props this) k) eqn:Hc; [reflexivity|].
      cbn [andb negb]. unfold written. rewrite (Hnone k Hown).
      rewrite currentState_uncontrolled by assumption.
      rewrite (lookup_own _ _ Hown). reflexivity. }
  split; [exact Hstate|].
  rewrite internalSetState_trace, Hstate. reflexivity.
Qed.

Lemma reducer_veto_witness :
  let this := construct (mkProps [] (fun _ _ => [])) in
  state (fst (toggle None this)) = state this.
Proof.
  apply (proj1 (reducer_veto (ChangesFun (toggleChanges (toggleType None)))
                  (fun this' => [Call (FnProp "onToggle")
                                   [obj_get "on" (currentState this')]])
                  (construct (mkProps [] (fun _ _ => [])))
                  eq_refl (fun _ _ => eq_refl))).
Defined.

End Handlers.

(** ** The Toggle that owns its state *)

Section PrimerFacts.

Import Primer.



Lemma primer_click_first (b : Value) (p1 p2 : Props) (i1 i2 : Obj) (x y : bool) :
  click {| bothOn := b;
           toggle1 := {| props := p1; initialState := i1; state := [("on", VBool x)] |};
           toggle2 := {| props := p2; initialState := i2; state := [("on", VBool y)] |} |}
        true
  = {| bothOn := VBool (negb x);
       toggle1 := {| props := toggleProps (VBool (negb x)); initialState := i1;
                     state := [("on", VBool (negb x))] |};
       toggle2 := {| props := toggleProps (VBool (negb x)); initialState := i2;
                     state := [("on", VBool y)] |} |}.
Proof. reflexivity. Qed.

Lemma primer_click_second (b : Value) (p1 p2 : Props) (i1 i2 : Obj) (x y : bool) :
  click {| bothOn := b;
           toggle1 := {| props := p1; initialState := i1; state := [("on", VBool x)] |};
           toggle2 := {| props := p2; initialState := i2; state := [("on", VBool y)] |} |}
        false
  = {| bothOn := VBool (negb y);
       toggle1 := {| props := toggleProps (VBool (negb y)); initialState := i1;
                     state := [("on", VBool x)] |};
       toggle2 := {| props := toggleProps (VBool (negb y)); initialState := i2;
                     state := [("on", VBool (negb y))] |} |}.
Proof. reflexivity. Qed.

Lemma primer_clicks_cons (c : bool) (cs : list bool) (u : Usage) :
  clicks (c :: cs) u = clicks cs (click u c).
Proof. reflexivity. Qed.

Lemma primer_clicks_from (cs : list bool) (b : bool) (x y : bool) :
  exists b',
    clicks cs
      {| bothOn := VBool b;
         toggle1 := {| props := toggleProps (VBool b); initialState := [];
                       state := [("on", VBool x)] |};
         toggle2 := {| props := toggleProps (VBool b); initialState := [];
                       state := [("on", VBool y)] |} |}
    = {| bothOn := VBool b';
         toggle1 := {| props := toggleProps (VBool b'); initialState := [];
                       state := [("on", VBool (xorb x (Nat.odd (length (filter (fun c => c) cs)))))] |};
         toggle2 := {| props := toggleProps (VBool b'); initialState := [];
                       state := [("on", VBool (xorb y (Nat.odd (length (filter negb cs)))))] |} |}.
Proof.
  revert b x y.
  induction cs as [|c cs IH]; intros b x y.
  - exists b. cbn. rewrite !xorb_false_r. reflexivity.
  - rewrite primer_clicks_cons. destruct c.
    + rewrite primer_click_first.
      destruct (IH (negb x) (negb x) y) as [b' Hb']. exists b'. rewrite Hb'.
      cbn [filter negb length]. rewrite Nat.odd_succ, <- Nat.negb_odd.
      destruct x, (Nat.odd (length (filter (fun c => c) cs))); reflexivity.
    + rewrite primer_click_second.
      destruct (IH (negb y) x (negb y)) as [b' Hb']. exists b'. rewrite Hb'.
      cbn [filter negb length]. rewrite Nat.odd_succ, <- Nat.negb_odd.
      destruct y, (Nat.odd (length (filter negb cs))); reflexivity.
Qed.

(** X18. In the primer's [Usage] the two toggles get [bothOn] as their [on]
    prop and do not read it: after any sequence of clicks each toggle shows
    the parity of the clicks on itself, both have [bothOn] as prop, and a
    click leaves in [bothOn] what the clicked toggle then shows. *)
Theorem primer_usage_toggles_independent (cs : list bool) (c : bool) :
  renderedOn (toggle1 (clicks cs mount))
  = VBool (Nat.odd (length (filter (fun c => c) cs)))
  /\ renderedOn (toggle2 (clicks cs mount))
     = VBool (Nat.odd (length (filter negb cs)))
  /\ props (toggle1 (clicks cs mount)) = toggleProps (bothOn (clicks cs mount))
  /\ props (toggle2 (clicks cs mount)) = toggleProps (bothOn (clicks cs mount))
  /\ bothOn (click (clicks cs mount) c)
     = renderedOn (if c then toggle1 (click (clicks cs mount) c)
                   else toggle2 (click (clicks cs mount) c)).
Proof.
  destruct (primer_clicks_from cs false false false) as [b' Hb'].
  change (clicks cs mount) with
    (clicks cs
       {| bothOn := VBool false;
          toggle1 := {| props := toggleProps (VBool false); initialState := [];
                        state := [("on", VBool false)] |};
          toggle2 := {| props := toggleProps (VBool false); initialState := [];
                        state := [("on", VBool false)] |} |}).
  rewrite Hb'. cbn [toggle1 toggle2 bothOn props renderedOn state xorb].
  repeat split.
  destruct c; [rewrite primer_click_first|rewrite primer_click_second]; reflexivity.
Qed.

End PrimerFacts.
